(** * Firmware-update engine and command dispatcher of the soil-sensor firmware

    A shallow embedding of [main/ota_update.c], of the command handler with the
    OTA commands (the revision of [command_handler.c] whose command set is the
    one declared in [main/command_handler.h]; the line numbers given for it
    are those of that revision) and of the MQTT data callback of
    [main/main.c].

    File-scope C variables become fields of a record that every function
    takes and returns.  What the ESP-IDF and FreeRTOS collaborators answer
    (HTTP client, partition writer, task creation, MQTT publish, timer) is an
    explicit argument of the function that asks for it.  The download task
    [ota_task] is cut at the points where it waits for a collaborator, so that
    calls of the public API can be placed between two of its steps. *)

From Stdlib Require Import ZArith List String Ascii Bool Lia.
From Stdlib Require Import Init.Byte.
Import ListNotations.
Local Open Scope Z_scope.

(* ====================================================================== *)
(** ** Machine integers *)

(** [uint32_t]: counters and time stamps wrap around modulo 2^32. *)
Definition u32 (z : Z) : Z := z mod 2 ^ 32.

(** [int]: 32-bit two's complement; an overflow wraps around. *)
Definition int32 (z : Z) : Z := (z + 2 ^ 31) mod 2 ^ 32 - 2 ^ 31.

(* ====================================================================== *)
(** ** esp_err.h

    The error codes are macros over [int]; the sources name the ones below
    and only ever compare a code against [ESP_OK] or
    [ESP_ERR_OTA_VALIDATE_FAILED].  [ESP_ERR_OTHER] stands for any code a
    collaborator returns that the sources do not name.

    Names of the specification: StateError is [ESP_ERR_INVALID_STATE],
    ArgumentError is [ESP_ERR_INVALID_ARG], Busy is [ESP_ERR_TIMEOUT]. *)
Inductive esp_err_t : Type :=
| ESP_OK
| ESP_FAIL
| ESP_ERR_NO_MEM
| ESP_ERR_INVALID_ARG
| ESP_ERR_INVALID_STATE
| ESP_ERR_TIMEOUT
| ESP_ERR_INVALID_RESPONSE
| ESP_ERR_OTA_VALIDATE_FAILED
| ESP_ERR_OTHER (code : Z).

Definition is_ESP_OK (e : esp_err_t) : bool :=
  match e with ESP_OK => true | _ => false end.

Definition is_OTA_VALIDATE_FAILED (e : esp_err_t) : bool :=
  match e with ESP_ERR_OTA_VALIDATE_FAILED => true | _ => false end.

(* ====================================================================== *)
(** ** ota_update.h *)

Inductive ota_state_t : Type :=
| OTA_STATE_IDLE
| OTA_STATE_DOWNLOADING
| OTA_STATE_VERIFYING
| OTA_STATE_INSTALLING
| OTA_STATE_SUCCESS
| OTA_STATE_ERROR.

Inductive ota_result_t : Type :=
| OTA_RESULT_SUCCESS
| OTA_RESULT_URL_ERROR
| OTA_RESULT_DOWNLOAD_ERROR
| OTA_RESULT_VERIFY_ERROR
| OTA_RESULT_INSTALL_ERROR
| OTA_RESULT_MEMORY_ERROR
| OTA_RESULT_NETWORK_ERROR.

Definition ota_state_eqb (a b : ota_state_t) : bool :=
  match a, b with
  | OTA_STATE_IDLE, OTA_STATE_IDLE
  | OTA_STATE_DOWNLOADING, OTA_STATE_DOWNLOADING
  | OTA_STATE_VERIFYING, OTA_STATE_VERIFYING
  | OTA_STATE_INSTALLING, OTA_STATE_INSTALLING
  | OTA_STATE_SUCCESS, OTA_STATE_SUCCESS
  | OTA_STATE_ERROR, OTA_STATE_ERROR => true
  | _, _ => false
  end.

(** [ota_config_t].  [callback] only records whether the pointer is set:
    neither [ota_start_update] nor [ota_task] reads it. *)
Record ota_config_t : Type := mk_config {
  firmware_url : string;
  version : string;
  auto_reboot : bool;
  timeout_ms : Z;
  callback : bool
}.

(** [ota_statistics_t]. *)
Record ota_statistics_t : Type := mk_stats {
  total_updates : Z;
  successful_updates : Z;
  failed_updates : Z;
  last_update_time : Z;
  last_version : string;
  last_result : ota_result_t
}.

(** [memset(&ota_stats, 0, sizeof(ota_statistics_t))]: the enumerator with
    value 0 is [OTA_RESULT_SUCCESS]. *)
Definition stats_zero : ota_statistics_t :=
  mk_stats 0 0 0 0 EmptyString OTA_RESULT_SUCCESS.

(* ====================================================================== *)
(** ** Bytes and C strings *)

(** The text of a [char] array read as a C string: the bytes before the
    first NUL. *)
Fixpoint c_str (bytes : list byte) : list byte :=
  match bytes with
  | [] => []
  | b :: rest => if Byte.eqb b x00 then [] else b :: c_str rest
  end.

(** [strncpy(dst, src, n)] followed by a terminating NUL at [dst[n]]: what
    [dst] then holds as a C string. *)
Definition strncpy_bytes (src : list byte) (n : nat) : string :=
  string_of_list_byte (firstn n (c_str src)).

Fixpoint string_firstn (n : nat) (s : string) : string :=
  match n, s with
  | S n', String c rest => String c (string_firstn n' rest)
  | _, _ => EmptyString
  end.

(** [strncpy] from a C string held as a [string]. *)
Definition strncpy (src : string) (n : nat) : string := string_firstn n src.

(** [memcmp(a, b, n)]; a byte past the end of a list reads as 0. *)
Fixpoint memcmp (a b : list byte) (n : nat) : Z :=
  match n with
  | O => 0
  | S n' =>
      let x := hd x00 a in
      let y := hd x00 b in
      if Byte.eqb x y then memcmp (tl a) (tl b) n'
      else Z.of_N (Byte.to_N x) - Z.of_N (Byte.to_N y)
  end.

(* ====================================================================== *)
(** ** The image format and the running application

    [esp_image_header_t], [esp_image_segment_header_t] and [esp_app_desc_t]
    are declared by ESP-IDF, not by this repository; their sizes, the place
    of [version] inside the descriptor and the descriptor of the running
    application ([esp_app_get_description()]) are parameters.
    [running_version] is the field [version] of that descriptor and
    [behind_running_version i] the byte [i] places behind the end of the
    field (the field [project_name] and what follows it in memory), which a
    read of [version] as a C string reaches when the field holds no NUL. *)
Record platform : Type := mk_platform {
  sizeof_esp_image_header_t : Z;
  sizeof_esp_image_segment_header_t : Z;
  sizeof_esp_app_desc_t : Z;
  offsetof_version : Z;
  running_version : list byte;
  behind_running_version : nat -> byte
}.

(** [sizeof(new_app_info->version)]: [char version[32]]. *)
Definition sizeof_version : nat := 32.

(** The part of [esp_app_desc_t] that the sources read. *)
Record esp_app_desc_t : Type := mk_app_desc {
  app_version : list byte
}.

Definition app_desc_zero : esp_app_desc_t := mk_app_desc [].

(* ====================================================================== *)
(** ** The download task: locals and program points *)

(** [ota_context_t] without the opaque handles. *)
Record ota_context_t : Type := mk_ctx {
  config : ota_config_t;
  binary_file_length : Z;
  image_header_was_checked : bool;
  new_app_info : esp_app_desc_t
}.

(** Where [ota_task] stands between two steps. *)
Inductive ota_pc : Type :=
| AtEntry (cfg : ota_config_t)
    (* created by xTaskCreate, nothing executed yet (line 140) *)
| AtSetup (ctx : ota_context_t)
    (* after ota_update_progress(0, ...) (line 152) *)
| AtLoop (ctx : ota_context_t) (binary_file_downloaded : Z)
    (* top of while (1) (line 227) *)
| AfterLoop (ctx : ota_context_t)
    (* the loop was left by break (line 291) *)
| AtOtaEnd (ctx : ota_context_t)
    (* esp_ota_end is running (line 298) *)
| AtSetBoot (ctx : ota_context_t)
    (* esp_ota_set_boot_partition is running (line 314) *)
| AtReboot
    (* the 3 s delay before esp_restart (lines 331-333) *)
| AtOtaEndLabel
    (* label ota_end (line 339) *)
| Fault.
    (* undefined behaviour: the division at line 276 with divisor 0 *)

(* ====================================================================== *)
(** ** The module state

    The first four fields are the statics of [ota_update.c].  [task] is the
    task behind [ota_task_handle], [None] when there is none.
    [ota_written] lists, oldest first, the data passed to [esp_ota_write].
    [start_suspended] holds while a call of [ota_start_update] has created
    the task and has not yet executed line 130. *)
Record ota_module : Type := mk_module {
  current_state : ota_state_t;
  current_progress : Z;
  ota_stats : ota_statistics_t;
  cancel_requested : bool;
  task : option ota_pc;
  ota_written : list (list byte);
  start_suspended : bool
}.

Definition set_current_state (v : ota_state_t) (m : ota_module) : ota_module :=
  mk_module v (current_progress m) (ota_stats m) (cancel_requested m)
            (task m) (ota_written m) (start_suspended m).

Definition set_current_progress (v : Z) (m : ota_module) : ota_module :=
  mk_module (current_state m) v (ota_stats m) (cancel_requested m)
            (task m) (ota_written m) (start_suspended m).

Definition set_ota_stats (v : ota_statistics_t) (m : ota_module) : ota_module :=
  mk_module (current_state m) (current_progress m) v (cancel_requested m)
            (task m) (ota_written m) (start_suspended m).

Definition set_cancel_requested (v : bool) (m : ota_module) : ota_module :=
  mk_module (current_state m) (current_progress m) (ota_stats m) v
            (task m) (ota_written m) (start_suspended m).

Definition set_task (v : option ota_pc) (m : ota_module) : ota_module :=
  mk_module (current_state m) (current_progress m) (ota_stats m)
            (cancel_requested m) v (ota_written m) (start_suspended m).

Definition push_ota_written (d : list byte) (m : ota_module) : ota_module :=
  mk_module (current_state m) (current_progress m) (ota_stats m)
            (cancel_requested m) (task m) (ota_written m ++ [d])
            (start_suspended m).

Definition set_start_suspended (v : bool) (m : ota_module) : ota_module :=
  mk_module (current_state m) (current_progress m) (ota_stats m)
            (cancel_requested m) (task m) (ota_written m) v.

(** Updates of single statistics fields. *)
Definition incr_total_updates (st : ota_statistics_t) : ota_statistics_t :=
  mk_stats (u32 (total_updates st + 1)) (successful_updates st)
           (failed_updates st) (last_update_time st) (last_version st)
           (last_result st).

Definition incr_successful_updates (st : ota_statistics_t) : ota_statistics_t :=
  mk_stats (total_updates st) (u32 (successful_updates st + 1))
           (failed_updates st) (last_update_time st) (last_version st)
           (last_result st).

Definition incr_failed_updates (st : ota_statistics_t) : ota_statistics_t :=
  mk_stats (total_updates st) (successful_updates st)
           (u32 (failed_updates st + 1)) (last_update_time st)
           (last_version st) (last_result st).

Definition set_last_result (r : ota_result_t) (st : ota_statistics_t)
  : ota_statistics_t :=
  mk_stats (total_updates st) (successful_updates st) (failed_updates st)
           (last_update_time st) (last_version st) r.

Definition set_last_update_time (t : Z) (st : ota_statistics_t)
  : ota_statistics_t :=
  mk_stats (total_updates st) (successful_updates st) (failed_updates st)
           t (last_version st) (last_result st).

Definition set_last_version (v : string) (st : ota_statistics_t)
  : ota_statistics_t :=
  mk_stats (total_updates st) (successful_updates st) (failed_updates st)
           (last_update_time st) v (last_result st).

(** The state after the C start-up code has initialised the statics. *)
Definition module_boot : ota_module :=
  mk_module OTA_STATE_IDLE 0 stats_zero false None [] false.

(* ====================================================================== *)
(** ** ota_update.c *)

(** What the collaborators answer between the entry of [ota_task] and its
    download loop (lines 160-217). *)
Record setup_env : Type := mk_setup_env {
  http_client_init : bool;          (* esp_http_client_init(...) != NULL *)
  next_update_partition : bool;     (* esp_ota_get_next_update_partition(NULL) != NULL *)
  ota_begin : esp_err_t;            (* esp_ota_begin(...) *)
  http_client_open : esp_err_t;     (* esp_http_client_open(client, 0) *)
  fetch_headers : Z;                (* esp_http_client_fetch_headers(client), an int64_t *)
  malloc_buffer : bool              (* malloc(OTA_BUFFER_SIZE) != NULL *)
}.

(** One pass through the loop body: what [esp_http_client_read] returns, the
    buffer it leaves, and what [esp_ota_write] answers if it is called. *)
Record chunk : Type := mk_chunk {
  data_read : Z;
  ota_write_data : list byte;
  ota_write : esp_err_t
}.

(** What a step of the task learns from its collaborators. *)
Inductive task_input : Type :=
| InNothing
| InSetup (env : setup_env)
| InChunk (c : chunk)
| InOtaEnd (err : esp_err_t)                      (* esp_ota_end(...) *)
| InSetBoot (err : esp_err_t) (timer_us : Z).     (* esp_ota_set_boot_partition, esp_timer_get_time *)

Section Engine.

Variable P : platform.

(** [ota_update_init], lines 76-89. *)
Definition ota_update_init (m : ota_module) : esp_err_t * ota_module :=
  (ESP_OK,
   set_ota_stats
     (set_last_version (strncpy_bytes (running_version P) 31) stats_zero) m).

(** [ota_is_updating], lines 439-442. *)
Definition ota_is_updating (m : ota_module) : bool :=
  negb (ota_state_eqb (current_state m) OTA_STATE_IDLE)
  && negb (ota_state_eqb (current_state m) OTA_STATE_SUCCESS)
  && negb (ota_state_eqb (current_state m) OTA_STATE_ERROR).

(** [ota_start_update], lines 96-128: the checks, the reset of the cancel
    flag and [xTaskCreate], whose answer is [task_created].  [Some e] is a
    [return e]; [None] means that the call goes on to line 130.  The argument
    is [None] for a NULL [config]. *)
Definition ota_start_update_create
    (config : option ota_config_t) (task_created : bool) (m : ota_module)
  : option esp_err_t * ota_module :=
  match config with
  | None => (Some ESP_ERR_INVALID_ARG, m)
  | Some cfg =>
      if negb (ota_state_eqb (current_state m) OTA_STATE_IDLE)
      then (Some ESP_ERR_INVALID_STATE, m)
      else
        let m1 := set_cancel_requested false m in
        if task_created
        then (None, set_task (Some (AtEntry cfg)) m1)
        else (Some ESP_ERR_NO_MEM, m1)
  end.

(** [ota_start_update], lines 130-134.  The notice published at line 132 is
    an output and leaves the variables alone. *)
Definition ota_start_update_commit (m : ota_module) : ota_module :=
  set_current_state OTA_STATE_DOWNLOADING
    (set_ota_stats (incr_total_updates (ota_stats m)) m).

(** [ota_start_update], lines 94-135, as one uninterrupted call. *)
Definition ota_start_update
    (config : option ota_config_t) (task_created : bool) (m : ota_module)
  : esp_err_t * ota_module :=
  match ota_start_update_create config task_created m with
  | (Some e, m') => (e, m')
  | (None, m') => (ESP_OK, ota_start_update_commit m')
  end.

(** [ota_cancel_update], lines 449-458. *)
Definition ota_cancel_update (m : ota_module) : esp_err_t * ota_module :=
  if negb (ota_is_updating m)
  then (ESP_ERR_INVALID_STATE, m)
  else (ESP_OK, set_cancel_requested true m).

(** [ota_reset_statistics], lines 460-465. *)
Definition ota_reset_statistics (m : ota_module) : esp_err_t * ota_module :=
  (ESP_OK, set_ota_stats stats_zero m).

(** The queries, lines 412-447. *)
Definition ota_get_state (m : ota_module) : ota_state_t := current_state m.

Definition ota_get_progress (m : ota_module) : Z := current_progress m.

Definition ota_get_statistics (stats_ptr : bool) (m : ota_module)
  : esp_err_t * option ota_statistics_t :=
  if stats_ptr then (ESP_OK, Some (ota_stats m))
  else (ESP_ERR_INVALID_ARG, None).

(** The bytes that [strncpy(dst, app_desc->version, n)] may read: the field
    [version] and, for [n] beyond its 32 bytes, the bytes behind it. *)
Definition version_and_behind (n : nat) : list byte :=
  running_version P
  ++ map (behind_running_version P) (seq 0 (n - sizeof_version)).

(** [ota_get_current_version], lines 426-437.  [version_buffer] is [false]
    for NULL.  The second component is the text that the buffer holds when
    the function returns, [None] when the buffer has not been written.  The
    copy is bounded by [buffer_size - 1] only, not by the size of the
    field. *)
Definition ota_get_current_version (version_buffer : bool)
    (buffer_size : nat) : esp_err_t * option string :=
  if negb version_buffer then (ESP_ERR_INVALID_ARG, None)
  else
    match buffer_size with
    | O => (ESP_ERR_INVALID_ARG, None)
    | S n => (ESP_OK, Some (strncpy_bytes (version_and_behind n) n))
    end.

(** [ota_update_progress], lines 382-394; the callback and the log leave the
    module's variables alone, and nothing in the repository registers a
    callback. *)
Definition ota_update_progress
    (percentage : Z) (state : ota_state_t) (m : ota_module) : ota_module :=
  set_current_state state (set_current_progress percentage m).

(** The block that every failing branch of [ota_task] repeats:
    [current_state = OTA_STATE_ERROR; ota_stats.failed_updates++;
     ota_stats.last_result = r;]. *)
Definition ota_fail (r : ota_result_t) (m : ota_module) : ota_module :=
  let m1 := set_current_state OTA_STATE_ERROR m in
  set_ota_stats (set_last_result r (incr_failed_updates (ota_stats m1))) m1.

(** [ota_validate_image_header], lines 360-377. *)
Definition ota_validate_image_header (new_app : option esp_app_desc_t)
  : esp_err_t :=
  match new_app with
  | None => ESP_ERR_INVALID_ARG
  | Some d =>
      if memcmp (app_version d) (running_version P) sizeof_version =? 0
      then ESP_FAIL
      else ESP_OK
  end.

(** The [memcpy] of line 248: the descriptor found in the buffer behind the
    image header and the first segment header. *)
Definition app_desc_of_buffer (buf : list byte) : esp_app_desc_t :=
  mk_app_desc
    (firstn sizeof_version
       (skipn (Z.to_nat (sizeof_esp_image_header_t P
                         + sizeof_esp_image_segment_header_t P
                         + offsetof_version P)) buf)).

(** The test of line 247. *)
Definition holds_app_desc (n : Z) : bool :=
  n >? sizeof_esp_image_header_t P + sizeof_esp_image_segment_header_t P
       + sizeof_esp_app_desc_t P.

Definition leave (pc : ota_pc) (m : ota_module) : ota_module :=
  set_task (Some pc) m.

(** [ota_task], lines 142-150. *)
Definition ota_task_entry (cfg : ota_config_t) (m : ota_module) : ota_module :=
  leave (AtSetup (mk_ctx cfg 0 false app_desc_zero))
        (ota_update_progress 0 OTA_STATE_DOWNLOADING m).

(** [ota_task], lines 152-224.  [esp_http_client_fetch_headers] returns an
    [int64_t], which line 204 stores in an [int]: the low 32 bits are
    kept. *)
Definition ota_task_setup (env : setup_env) (ctx : ota_context_t)
    (m : ota_module) : ota_module :=
  if negb (http_client_init env)
  then leave AtOtaEndLabel (ota_fail OTA_RESULT_NETWORK_ERROR m)
  else if negb (next_update_partition env)
  then leave AtOtaEndLabel (ota_fail OTA_RESULT_INSTALL_ERROR m)
  else if negb (is_ESP_OK (ota_begin env))
  then leave AtOtaEndLabel (ota_fail OTA_RESULT_INSTALL_ERROR m)
  else if negb (is_ESP_OK (http_client_open env))
  then leave AtOtaEndLabel (ota_fail OTA_RESULT_NETWORK_ERROR m)
  else
  let content_length := int32 (fetch_headers env) in
  if content_length <? 0
  then leave AtOtaEndLabel (ota_fail OTA_RESULT_DOWNLOAD_ERROR m)
  else
    let ctx1 := mk_ctx (config ctx) content_length
                       (image_header_was_checked ctx) (new_app_info ctx) in
    if negb (malloc_buffer env)
    then leave AtOtaEndLabel (ota_fail OTA_RESULT_MEMORY_ERROR m)
    else leave (AtLoop ctx1 0) m.

(** Lines 245-261: the header check of the loop body.  [None] is the
    [break] of line 256. *)
Definition check_image_header (c : chunk) (ctx : ota_context_t)
  : option ota_context_t :=
  if negb (image_header_was_checked ctx) && holds_app_desc (data_read c)
  then
    let new_app := app_desc_of_buffer (ota_write_data c) in
    if negb (is_ESP_OK (ota_validate_image_header (Some new_app)))
    then None
    else Some (mk_ctx (config ctx) (binary_file_length ctx) true new_app)
  else Some ctx.

(** [ota_task], lines 228-288: one pass through the body of [while (1)]. *)
Definition ota_task_iteration (c : chunk) (ctx : ota_context_t)
    (binary_file_downloaded : Z) (m : ota_module) : ota_module :=
  if cancel_requested m
  then leave (AfterLoop ctx) (ota_fail OTA_RESULT_DOWNLOAD_ERROR m)
  else if data_read c <? 0
  then leave (AfterLoop ctx) (ota_fail OTA_RESULT_DOWNLOAD_ERROR m)
  else if data_read c >? 0
  then
    match check_image_header c ctx with
    | None => leave (AfterLoop ctx) (ota_fail OTA_RESULT_VERIFY_ERROR m)
    | Some ctx1 =>
        let m1 :=
          push_ota_written
            (firstn (Z.to_nat (data_read c)) (ota_write_data c)) m in
        if negb (is_ESP_OK (ota_write c))
        then leave (AfterLoop ctx1) (ota_fail OTA_RESULT_INSTALL_ERROR m1)
        else
          let downloaded := int32 (binary_file_downloaded + data_read c) in
          if binary_file_length ctx1 =? 0
          then leave Fault m1
          else
            let progress :=
              Z.quot (int32 (downloaded * 100)) (binary_file_length ctx1) in
            let m2 := set_current_progress progress m1 in
            let m3 :=
              if (Z.rem progress 10 =? 0) && (progress >? 0)
              then ota_update_progress progress OTA_STATE_DOWNLOADING m2
              else m2 in
            leave (AtLoop ctx1 downloaded) m3
    end
  else leave (AfterLoop ctx) m.

(** [ota_task], lines 291-295. *)
Definition ota_task_after_loop (ctx : ota_context_t) (m : ota_module)
  : ota_module :=
  if negb (ota_state_eqb (current_state m) OTA_STATE_ERROR)
  then leave (AtOtaEnd ctx)
         (ota_update_progress 95 OTA_STATE_VERIFYING
            (set_current_state OTA_STATE_VERIFYING m))
  else leave AtOtaEndLabel m.

(** [ota_task], lines 298-311. *)
Definition ota_task_ota_end (err : esp_err_t) (ctx : ota_context_t)
    (m : ota_module) : ota_module :=
  if negb (is_ESP_OK err)
  then
    let r := if is_OTA_VALIDATE_FAILED err
             then OTA_RESULT_VERIFY_ERROR else OTA_RESULT_INSTALL_ERROR in
    let m1 := set_ota_stats (set_last_result r (ota_stats m)) m in
    let m2 := set_current_state OTA_STATE_ERROR m1 in
    leave AtOtaEndLabel
      (set_ota_stats (incr_failed_updates (ota_stats m2)) m2)
  else
    leave (AtSetBoot ctx)
      (ota_update_progress 98 OTA_STATE_INSTALLING
         (set_current_state OTA_STATE_INSTALLING m)).

(** [ota_task], lines 314-336. *)
Definition ota_task_set_boot (err : esp_err_t) (timer_us : Z)
    (ctx : ota_context_t) (m : ota_module) : ota_module :=
  if negb (is_ESP_OK err)
  then leave AtOtaEndLabel (ota_fail OTA_RESULT_INSTALL_ERROR m)
  else
    let m1 := set_current_state OTA_STATE_SUCCESS m in
    let st :=
      set_last_version (strncpy_bytes (app_version (new_app_info ctx)) 31)
        (set_last_update_time (u32 (Z.quot timer_us 1000000))
           (set_last_result OTA_RESULT_SUCCESS
              (incr_successful_updates (ota_stats m1)))) in
    let m2 := ota_update_progress 100 OTA_STATE_SUCCESS (set_ota_stats st m1) in
    if auto_reboot (config ctx) then leave AtReboot m2
    else leave AtOtaEndLabel m2.

(** [ota_task], lines 339-354: the client is released, a failure is
    published, the task deletes itself. *)
Definition ota_task_exit (m : ota_module) : ota_module := set_task None m.

(** One step of the task from the point where it stands.  [None]: there is
    no task, it cannot go on ([AtReboot] ends in [esp_restart], [Fault] is
    undefined behaviour), or the input is not the one the step asks for. *)
Definition ota_task_step (i : task_input) (m : ota_module)
  : option ota_module :=
  match task m, i with
  | Some (AtEntry cfg), InNothing => Some (ota_task_entry cfg m)
  | Some (AtSetup ctx), InSetup env => Some (ota_task_setup env ctx m)
  | Some (AtLoop ctx n), InChunk c => Some (ota_task_iteration c ctx n m)
  | Some (AfterLoop ctx), InNothing => Some (ota_task_after_loop ctx m)
  | Some (AtOtaEnd ctx), InOtaEnd err => Some (ota_task_ota_end err ctx m)
  | Some (AtSetBoot ctx), InSetBoot err t =>
      Some (ota_task_set_boot err t ctx m)
  | Some AtOtaEndLabel, InNothing => Some (ota_task_exit m)
  | _, _ => None
  end.

(** The task run from where it stands through a list of inputs. *)
Fixpoint ota_task_run (inputs : list task_input) (m : ota_module)
  : option ota_module :=
  match inputs with
  | [] => Some m
  | i :: rest =>
      match ota_task_step i m with
      | Some m' => ota_task_run rest m'
      | None => None
      end
  end.

End Engine.

(* ====================================================================== *)
(** ** Executions: calls of the API between steps of the task

    The command task is the only caller of [ota_start_update],
    [ota_cancel_update] and [ota_reset_statistics]; it runs at
    [COMMAND_TASK_PRIORITY] 4 and creates [ota_task] at [OTA_TASK_PRIORITY]
    5.  [xTaskCreate] makes the new task runnable at once, so the caller can
    lose the processor inside [ota_start_update], between line 116 and line
    130: [EvStartCreate] and [EvStartResume] are the two halves of such a
    call, [EvStart] is a whole call that nothing interrupts.  While a call is
    suspended the command task makes no other call. *)
Inductive event : Type :=
| EvStart (config : option ota_config_t) (task_created : bool)
| EvStartCreate (config : option ota_config_t) (task_created : bool)
| EvStartResume
| EvCancel
| EvResetStatistics
| EvQuery
| EvTask (i : task_input).

Section Executions.

Variable P : platform.

Definition step (e : event) (m : ota_module) : option ota_module :=
  match e with
  | EvStart config created =>
      if start_suspended m then None
      else Some (snd (ota_start_update config created m))
  | EvStartCreate config created =>
      if start_suspended m then None
      else
        match ota_start_update_create config created m with
        | (Some _, m') => Some m'
        | (None, m') => Some (set_start_suspended true m')
        end
  | EvStartResume =>
      if start_suspended m
      then Some (set_start_suspended false (ota_start_update_commit m))
      else None
  | EvCancel =>
      if start_suspended m then None else Some (snd (ota_cancel_update m))
  | EvResetStatistics =>
      if start_suspended m then None else Some (snd (ota_reset_statistics m))
  | EvQuery => Some m
  | EvTask i => ota_task_step P i m
  end.

(** The values of [current_state] seen along an execution: the one at the
    start and the one after every event; the execution stops at the first
    event that cannot happen. *)
Fixpoint states_along (es : list event) (m : ota_module)
  : list ota_state_t :=
  current_state m ::
  match es with
  | [] => []
  | e :: rest =>
      match step e m with
      | Some m' => states_along rest m'
      | None => []
      end
  end.

Fixpoint run (es : list event) (m : ota_module) : option ota_module :=
  match es with
  | [] => Some m
  | e :: rest =>
      match step e m with
      | Some m' => run rest m'
      | None => None
      end
  end.

End Executions.

(** The edges of the state graph
    Idle -> Downloading -> {Verifying -> Installing -> Success | Error},
    with Error reachable from every state that is neither Idle nor
    terminal. *)
Definition dag_edge (a b : ota_state_t) : bool :=
  match a, b with
  | OTA_STATE_IDLE, OTA_STATE_DOWNLOADING
  | OTA_STATE_DOWNLOADING, OTA_STATE_VERIFYING
  | OTA_STATE_DOWNLOADING, OTA_STATE_ERROR
  | OTA_STATE_VERIFYING, OTA_STATE_INSTALLING
  | OTA_STATE_VERIFYING, OTA_STATE_ERROR
  | OTA_STATE_INSTALLING, OTA_STATE_SUCCESS
  | OTA_STATE_INSTALLING, OTA_STATE_ERROR => true
  | _, _ => false
  end.

(** The state stays what it is or moves along an edge. *)
Definition dag_move (a b : ota_state_t) : bool :=
  ota_state_eqb a b || dag_edge a b.

Fixpoint dag_path (l : list ota_state_t) : bool :=
  match l with
  | a :: (b :: _) as rest => dag_move a b && dag_path rest
  | _ => true
  end.

(** The states in which an update is in progress. *)
Definition in_progress (s : ota_state_t) : bool :=
  match s with
  | OTA_STATE_DOWNLOADING | OTA_STATE_VERIFYING | OTA_STATE_INSTALLING => true
  | _ => false
  end.

(** A pass of the loop body with a chunk that is too small for the test of
    line 247 and that [esp_ota_write] accepts. *)
Definition small_chunk (P : platform) (c : chunk) : Prop :=
  0 < data_read c /\ holds_app_desc P (data_read c) = false
  /\ ota_write c = ESP_OK.

(** The bytes that a pass hands to [esp_ota_write]. *)
Definition written_bytes (c : chunk) : list byte :=
  firstn (Z.to_nat (data_read c)) (ota_write_data c).

(** What the task relies on, between two events of an execution without an
    interrupted start, about the state it last wrote. *)
Definition task_inv (m : ota_module) : Prop :=
  start_suspended m = false /\
  match task m with
  | Some (AtEntry _) | Some (AtSetup _) | Some (AtLoop _ _) =>
      current_state m = OTA_STATE_DOWNLOADING
  | Some (AfterLoop _) =>
      current_state m = OTA_STATE_DOWNLOADING
      \/ current_state m = OTA_STATE_ERROR
  | Some (AtOtaEnd _) => current_state m = OTA_STATE_VERIFYING
  | Some (AtSetBoot _) => current_state m = OTA_STATE_INSTALLING
  | _ => True
  end.

(** An execution in which no call of [ota_start_update] is interrupted. *)
Definition uninterrupted (e : event) : bool :=
  match e with
  | EvStartCreate _ _ | EvStartResume => false
  | _ => true
  end.

(* ====================================================================== *)
(** ** command_handler.h *)

Inductive command_type_t : Type :=
| CMD_WATER
| CMD_GET_STATUS
| CMD_GET_READING
| CMD_OTA_UPDATE
| CMD_OTA_STATUS
| CMD_OTA_CANCEL
| CMD_UNKNOWN.

Definition is_CMD_UNKNOWN (c : command_type_t) : bool :=
  match c with CMD_UNKNOWN => true | _ => false end.

(** [mqtt_command_t]; [data] is a [char[64]] read as a C string. *)
Record mqtt_command_t : Type := mk_command {
  type : command_type_t;
  data : string;
  timestamp : Z
}.

(* ====================================================================== *)
(** ** FreeRTOS queue

    [xQueueCreate], [xQueueSend] with a block time of 0 ticks and
    [xQueueReceive] belong to FreeRTOS: a queue of fixed length that holds
    copies of its items in the order in which they were sent. *)
Record queue : Type := mk_queue {
  uxLength : nat;
  items : list mqtt_command_t
}.

Definition xQueueCreate (length : nat) : queue := mk_queue length [].

(** [xQueueSend(q, &item, 0)]: [true] is [pdPASS]. *)
Definition xQueueSend (q : queue) (item : mqtt_command_t) : bool * queue :=
  if (List.length (items q) <? uxLength q)%nat
  then (true, mk_queue (uxLength q) (items q ++ [item]))
  else (false, q).

(** [xQueueReceive(q, &item, ticks)] once it has returned: the oldest item,
    or nothing after the block time. *)
Definition xQueueReceive (q : queue) : option mqtt_command_t * queue :=
  match items q with
  | [] => (None, q)
  | c :: rest => (Some c, mk_queue (uxLength q) rest)
  end.

(** The variable [command_queue]: NULL, a live queue, or the stale handle
    that [command_handler_init] leaves behind after [vQueueDelete]. *)
Inductive QueueHandle_t : Type :=
| QueueNull
| QueueLive (q : queue)
| QueueDeleted.

(* ====================================================================== *)
(** ** The command handler (command_handler.c with the OTA commands) *)

Definition COMMAND_QUEUE_SIZE : nat := 10.

(** The statics of the command handler.  The event group is left out: its
    bits are set and cleared within one pass of the task loop. *)
Record command_handler : Type := mk_handler {
  command_queue : QueueHandle_t;
  pump_enabled : bool;
  processed_count : Z;
  error_count : Z;
  water_count : Z
}.

Definition handler_boot : command_handler :=
  mk_handler QueueNull false 0 0 0.

Definition set_command_queue (q : QueueHandle_t) (h : command_handler)
  : command_handler :=
  mk_handler q (pump_enabled h) (processed_count h) (error_count h)
             (water_count h).

(** [command_handler_init], lines 67-105. *)
Definition command_handler_init
    (queue_created group_created task_created : bool) (h : command_handler)
  : esp_err_t * command_handler :=
  if negb queue_created then (ESP_ERR_NO_MEM, set_command_queue QueueNull h)
  else
    let h1 := set_command_queue (QueueLive (xQueueCreate COMMAND_QUEUE_SIZE)) h in
    if negb group_created
    then (ESP_ERR_NO_MEM, set_command_queue QueueDeleted h1)
    else if negb task_created
    then (ESP_ERR_NO_MEM, set_command_queue QueueDeleted h1)
    else (ESP_OK, h1).

Definition head_char (s : string) : ascii :=
  match s with
  | String c _ => c
  | EmptyString => Ascii.zero
  end.

Definition tail_string (s : string) : string :=
  match s with
  | String _ rest => rest
  | EmptyString => EmptyString
  end.

(** [strncmp(s1, s2, n)]: at most [n] characters are compared, and the
    comparison stops behind a NUL.  A [string] ends where the characters
    that the caller may read end; past that the model reads NUL. *)
Fixpoint strncmp (s1 s2 : string) (n : nat) : Z :=
  match n with
  | O => 0
  | S n' =>
      let c1 := head_char s1 in
      let c2 := head_char s2 in
      if Ascii.eqb c1 c2
      then if Ascii.eqb c1 Ascii.zero then 0
           else strncmp (tail_string s1) (tail_string s2) n'
      else Z.of_nat (nat_of_ascii c1) - Z.of_nat (nat_of_ascii c2)
  end.

(** The six bytes of the UTF-8 literal of line 117 (U+6F86 U+6C34). *)
Definition WATER_ALIAS : string :=
  string_of_list_byte [xe6; xbe; x86; xe6; xb0; xb4].

(** [parse_command], lines 110-133.  [command_str] is [None] for NULL. *)
Definition parse_command (command_str : option string) (cmd_len : Z)
  : command_type_t :=
  match command_str with
  | None => CMD_UNKNOWN
  | Some s =>
      if cmd_len <=? 0 then CMD_UNKNOWN
      else
        let n := Z.to_nat cmd_len in
        if (strncmp s WATER_ALIAS n =? 0) || (strncmp s "WATER" n =? 0)
        then CMD_WATER
        else if strncmp s "GET_STATUS" n =? 0 then CMD_GET_STATUS
        else if strncmp s "GET_READING" n =? 0 then CMD_GET_READING
        else if strncmp s "OTA_UPDATE" n =? 0 then CMD_OTA_UPDATE
        else if strncmp s "OTA_STATUS" n =? 0 then CMD_OTA_STATUS
        else if strncmp s "OTA_CANCEL" n =? 0 then CMD_OTA_CANCEL
        else CMD_UNKNOWN
  end.

(** The command that [enqueue_command] builds, lines 145-156; [now_us] is
    [esp_timer_get_time()]. *)
Definition make_command (cmd_type : command_type_t) (payload : option string)
    (now_us : Z) : mqtt_command_t :=
  mk_command cmd_type
    (match payload with
     | Some d => strncpy d 63
     | None => EmptyString
     end)
    (u32 (Z.quot now_us 1000000)).

(** [enqueue_command], lines 138-168.  [None]: the handle is stale and the
    call has no defined behaviour. *)
Definition enqueue_command (cmd_type : command_type_t)
    (payload : option string) (now_us : Z) (h : command_handler)
  : option (esp_err_t * command_handler) :=
  match command_queue h with
  | QueueNull => Some (ESP_ERR_INVALID_STATE, h)
  | QueueDeleted => None
  | QueueLive q =>
      match xQueueSend q (make_command cmd_type payload now_us) with
      | (true, q') => Some (ESP_OK, set_command_queue (QueueLive q') h)
      | (false, _) => Some (ESP_ERR_TIMEOUT, h)
      end
  end.

(** What the MQTT client answers to a publish: whether [get_mqtt_client()]
    is set and the message id of [esp_mqtt_client_publish]. *)
Record mqtt_env : Type := mk_mqtt_env {
  mqtt_client : bool;
  msg_id : Z
}.

(** [send_mqtt_response], lines 499-519, for a message that is not NULL. *)
Definition send_mqtt_response (mq : mqtt_env) : esp_err_t :=
  if negb (mqtt_client mq) then ESP_ERR_INVALID_ARG
  else if msg_id mq >=? 0 then ESP_OK
  else ESP_ERR_INVALID_RESPONSE.

(** [execute_water_command], lines 173-213. *)
Definition execute_water_command (h : command_handler)
  : esp_err_t * command_handler :=
  (ESP_OK,
   mk_handler (command_queue h) false (processed_count h) (error_count h)
              (u32 (water_count h + 1))).

(** [execute_status_command], [execute_reading_command] and
    [execute_ota_status_command] publish a text and return [ESP_OK]. *)
Definition execute_status_command : esp_err_t := ESP_OK.
Definition execute_reading_command : esp_err_t := ESP_OK.
Definition execute_ota_status_command : esp_err_t := ESP_OK.

Section Dispatcher.

Variable P : platform.

(** [execute_ota_update_command], lines 307-351.  [mq] answers the publish
    whose result the function returns; [task_created] is the answer of
    [xTaskCreate] inside [ota_start_update].  The initialiser of line 324
    leaves [ota_config.version] empty, and [ota_get_current_version] fills
    it. *)
Definition execute_ota_update_command (url : option string)
    (mq : mqtt_env) (task_created : bool) (m : ota_module)
  : esp_err_t * ota_module :=
  let rejected (e : esp_err_t) :=
    let result := send_mqtt_response mq in
    (if is_ESP_OK result then e else result, m) in
  match url with
  | None => rejected ESP_ERR_INVALID_ARG
  | Some u =>
      if (String.length u =? 0)%nat then rejected ESP_ERR_INVALID_ARG
      else if ota_is_updating m then rejected ESP_ERR_INVALID_STATE
      else
        let ota_config :=
          mk_config (strncpy u 255)
                    (match snd (ota_get_current_version P true 32) with
                     | Some version => version
                     | None => EmptyString
                     end)
                    true 30000 false in
        ota_start_update (Some ota_config) task_created m
  end.

(** [execute_ota_cancel_command], lines 402-423. *)
Definition execute_ota_cancel_command (mq : mqtt_env) (m : ota_module)
  : esp_err_t * ota_module :=
  if negb (ota_is_updating m)
  then
    let result := send_mqtt_response mq in
    (if is_ESP_OK result then ESP_ERR_INVALID_STATE else result, m)
  else ota_cancel_update m.

(** The firmware: the command handler and the update module. *)
Record device : Type := mk_device {
  handler : command_handler;
  ota : ota_module
}.

(** The [switch] of [command_handler_task], lines 445-475. *)
Definition execute_command (command : mqtt_command_t) (mq : mqtt_env)
    (task_created : bool) (d : device) : esp_err_t * device :=
  match type command with
  | CMD_WATER =>
      let (r, h) := execute_water_command (handler d) in
      (r, mk_device h (ota d))
  | CMD_GET_STATUS => (execute_status_command, d)
  | CMD_GET_READING => (execute_reading_command, d)
  | CMD_OTA_UPDATE =>
      let (r, m) :=
        execute_ota_update_command (Some (data command)) mq task_created
                                   (ota d) in
      (r, mk_device (handler d) m)
  | CMD_OTA_STATUS => (execute_ota_status_command, d)
  | CMD_OTA_CANCEL =>
      let (r, m) := execute_ota_cancel_command mq (ota d) in
      (r, mk_device (handler d) m)
  | CMD_UNKNOWN => (ESP_ERR_INVALID_ARG, d)
  end.

(** Lines 478-484: the two counters. *)
Definition count_result (r : esp_err_t) (h : command_handler)
  : command_handler :=
  if is_ESP_OK r
  then mk_handler (command_queue h) (pump_enabled h)
                  (u32 (processed_count h + 1)) (error_count h) (water_count h)
  else mk_handler (command_queue h) (pump_enabled h) (processed_count h)
                  (u32 (error_count h + 1)) (water_count h).

(** One pass of the loop of [command_handler_task], lines 434-493.  The task
    exists only after [command_handler_init] has created the queue; [None]
    otherwise. *)
Definition command_handler_task_pass (mq : mqtt_env) (task_created : bool)
    (d : device) : option device :=
  match command_queue (handler d) with
  | QueueLive q =>
      match xQueueReceive q with
      | (None, _) => Some d
      | (Some command, q') =>
          let d1 :=
            mk_device (set_command_queue (QueueLive q') (handler d)) (ota d) in
          let (r, d2) := execute_command command mq task_created d1 in
          Some (mk_device (count_result r (handler d2)) (ota d2))
      end
  | _ => None
  end.

(** [mqtt_event_handler] of main.c, case [MQTT_EVENT_DATA], lines 231-255:
    [event_data] and [data_len] are [event->data] and [event->data_len]. *)
Definition mqtt_event_data (event_data : option string) (data_len : Z)
    (now_us : Z) (d : device) : option device :=
  let cmd_type := parse_command event_data data_len in
  if negb (is_CMD_UNKNOWN cmd_type)
  then
    match enqueue_command cmd_type None now_us (handler d) with
    | Some (_, h) => Some (mk_device h (ota d))
    | None => None
    end
  else Some d.

(** What reaches the firmware over the message bus, and the command task
    serving its queue. *)
Inductive bus_event : Type :=
| MqttData (event_data : option string) (data_len : Z) (now_us : Z)
| CommandTaskPass (mq : mqtt_env) (task_created : bool).

Definition bus_step (e : bus_event) (d : device) : option device :=
  match e with
  | MqttData event_data data_len now_us =>
      mqtt_event_data event_data data_len now_us d
  | CommandTaskPass mq task_created =>
      command_handler_task_pass mq task_created d
  end.

Fixpoint bus_run (es : list bus_event) (d : device) : option device :=
  match es with
  | [] => Some d
  | e :: rest =>
      match bus_step e d with
      | Some d' => bus_run rest d'
      | None => None
      end
  end.

End Dispatcher.

(** Every command waiting in the queue has an empty payload. *)
Definition payloads_empty (h : command_handler) : Prop :=
  match command_queue h with
  | QueueLive q => Forall (fun c => data c = EmptyString) (items q)
  | _ => True
  end.

(* ====================================================================== *)
(** ** Concrete data used by the examples *)

(** A [char version[32]] that holds the text [s], padded with NUL. *)
Definition version_field (s : string) : list byte :=
  let b := list_byte_of_string s in
  firstn sizeof_version (b ++ repeat x00 sizeof_version).

(** The layout of ESP-IDF v5 (24-byte image header, 8-byte segment header,
    256-byte application descriptor with [version] at offset 16) and a
    running application of version 1.0.0. *)
Definition esp32c3 : platform :=
  mk_platform 24 8 256 16 (version_field "1.0.0") (fun _ => x00).


Definition example_config : ota_config_t :=
  mk_config "http://192.168.1.10/firmware.bin" "1.0.0" true 30000 false.


(** A locator without a scheme. *)
Definition bad_url_config : ota_config_t :=
  mk_config "firmware.bin" "1.0.0" true 30000 false.

(** A read that fills the 1024-byte buffer with an image whose descriptor
    carries version [v]. *)
Definition image_chunk (v : string) (write : esp_err_t) : chunk :=
  mk_chunk 1024
    (repeat x00 48 ++ version_field v ++ repeat xff (1024 - 80)) write.

(** A read of four bytes. *)
Definition short_chunk : chunk := mk_chunk 4 [x01; x02; x03; x04] ESP_OK.

Definition end_of_file : chunk := mk_chunk 0 [] ESP_OK.

Definition setup_ok (content_length : Z) : setup_env :=
  mk_setup_env true true ESP_OK ESP_OK content_length true.

(** The module after an accepted, uninterrupted start from boot. *)
Definition module_started : ota_module :=
  snd (ota_start_update (Some example_config) true module_boot).

(** The task of [module_started] at the top of its loop, source length
    2048. *)
Definition module_downloading : ota_module :=
  match ota_task_run esp32c3 [InNothing; InSetup (setup_ok 2048)]
                     module_started with
  | Some m => m
  | None => module_started
  end.

(** [esp_http_client_init] returns NULL: it has no memory, or it cannot
    parse the locator. *)
Definition setup_no_client : setup_env :=
  mk_setup_env false true ESP_OK ESP_OK 0 true.

(** An execution in which the created task runs, fails and ends before its
    creator reaches line 130. *)
Definition interrupted_start : list event :=
  [ EvStartCreate (Some bad_url_config) true;
    EvTask InNothing;
    EvTask (InSetup setup_no_client);
    EvTask InNothing;
    EvStartResume ].

(** A download whose first read returns four bytes and whose second read
    reports the end of the source. *)
Definition short_download : list task_input :=
  [ InNothing; InSetup (setup_ok 4); InChunk short_chunk;
    InChunk end_of_file; InNothing; InOtaEnd ESP_OK;
    InSetBoot ESP_OK 60000000 ].

(** A read of exactly 288 bytes, 24 + 8 + 256: the image header, the first
    segment header and the whole descriptor, which carries version [v]. *)
Definition exact_size_chunk (v : string) : chunk :=
  mk_chunk 288
    (repeat x00 48 ++ version_field v ++ repeat xff (288 - 80)) ESP_OK.

(** A read that fills the buffer with 1024 bytes from the body of an
    image. *)
Definition body_chunk : chunk := mk_chunk 1024 (repeat xff 1024) ESP_OK.

(** A download of 1312 bytes whose first read returns the 288 bytes of
    [exact_size_chunk v]. *)
Definition exact_size_download (v : string) : list task_input :=
  [ InNothing; InSetup (setup_ok 1312); InChunk (exact_size_chunk v);
    InChunk body_chunk; InChunk end_of_file; InNothing; InOtaEnd ESP_OK;
    InSetBoot ESP_OK 60000000 ].

(** An image of 1124 bytes whose descriptor carries version [v], and its
    download in two reads, of 100 and of 1024 bytes. *)
Definition image_of_version (v : string) : list byte :=
  repeat x00 48 ++ version_field v ++ repeat xff (1124 - 80).

Definition split_download (v : string) : list task_input :=
  [ InNothing; InSetup (setup_ok 1124);
    InChunk (mk_chunk 100 (firstn 100 (image_of_version v)) ESP_OK);
    InChunk (mk_chunk 1024 (skipn 100 (image_of_version v)) ESP_OK);
    InChunk end_of_file; InNothing; InOtaEnd ESP_OK;
    InSetBoot ESP_OK 60000000 ].

(** The handler after a successful [command_handler_init]. *)
Definition handler_ready : command_handler :=
  snd (command_handler_init true true true handler_boot).

(** The handler with ten commands waiting. *)
Definition handler_full : command_handler :=
  set_command_queue
    (QueueLive (mk_queue COMMAND_QUEUE_SIZE
                  (repeat (make_command CMD_GET_STATUS None 0) 10)))
    handler_ready.

(** The handler with one OTA_CANCEL command waiting. *)
Definition handler_ota_cancel : command_handler :=
  set_command_queue
    (QueueLive (mk_queue COMMAND_QUEUE_SIZE
                  [make_command CMD_OTA_CANCEL None 0]))
    handler_ready.

(** The firmware after [app_main] has initialised both modules. *)
Definition device_boot : device :=
  mk_device handler_ready (snd (ota_update_init esp32c3 module_boot)).

(** The MQTT client is connected and the publish succeeds. *)
Definition publish_ok : mqtt_env := mk_mqtt_env true 1.

(** The MQTT client is there and [esp_mqtt_client_publish] returns -1. *)
Definition publish_fails : mqtt_env := mk_mqtt_env true (-1).

(** "OTA_UPDATE" arrives on the command topic, then the command task serves
    the queue. *)
Definition ota_update_over_bus (mq : mqtt_env) : list bus_event :=
  [ MqttData (Some "OTA_UPDATE"%string) 10 5000000;
    CommandTaskPass mq true ].

(* ====================================================================== *)
(** ** Vocabulary of the further properties of the update engine *)

(** What every point of an execution without an interrupted start shows
    about the task and the state it wrote: with no task the state is Idle or
    terminal, and each program point of the task determines the state. *)
Definition engine_inv (m : ota_module) : Prop :=
  start_suspended m = false /\
  match task m with
  | None =>
      current_state m = OTA_STATE_IDLE
      \/ current_state m = OTA_STATE_SUCCESS
      \/ current_state m = OTA_STATE_ERROR
  | Some (AtEntry _) | Some (AtSetup _) | Some (AtLoop _ _) | Some Fault =>
      current_state m = OTA_STATE_DOWNLOADING
  | Some (AfterLoop _) =>
      current_state m = OTA_STATE_DOWNLOADING
      \/ current_state m = OTA_STATE_ERROR
  | Some (AtOtaEnd _) => current_state m = OTA_STATE_VERIFYING
  | Some (AtSetBoot _) => current_state m = OTA_STATE_INSTALLING
  | Some AtReboot => current_state m = OTA_STATE_SUCCESS
  | Some AtOtaEndLabel =>
      current_state m = OTA_STATE_SUCCESS
      \/ current_state m = OTA_STATE_ERROR
  end.

(** 1 while an accepted update has been counted in [total_updates] and not
    yet in [successful_updates] or [failed_updates], 0 otherwise. *)
Definition pending (m : ota_module) : Z :=
  match task m with
  | Some (AtEntry _) | Some (AtSetup _) | Some (AtLoop _ _)
  | Some (AtOtaEnd _) | Some (AtSetBoot _) | Some Fault => 1
  | Some (AfterLoop _) =>
      if ota_state_eqb (current_state m) OTA_STATE_ERROR then 0 else 1
  | _ => 0
  end.

(** The three counters agree, as [uint32_t] values. *)
Definition accounted (m : ota_module) : Prop :=
  u32 (total_updates (ota_stats m))
  = u32 (successful_updates (ota_stats m) + failed_updates (ota_stats m)
         + pending m).

(** The results that [ota_task] records with a failure. *)
Definition is_failure_result (r : ota_result_t) : bool :=
  match r with
  | OTA_RESULT_DOWNLOAD_ERROR | OTA_RESULT_VERIFY_ERROR
  | OTA_RESULT_INSTALL_ERROR | OTA_RESULT_MEMORY_ERROR
  | OTA_RESULT_NETWORK_ERROR => true
  | _ => false
  end.

(** The last result fits a terminal state. *)
Definition result_matches_state (m : ota_module) : Prop :=
  match current_state m with
  | OTA_STATE_ERROR => is_failure_result (last_result (ota_stats m)) = true
  | OTA_STATE_SUCCESS => last_result (ota_stats m) = OTA_RESULT_SUCCESS
  | _ => True
  end.

(** An event of an execution in which no start is interrupted and the
    statistics are not reset. *)
Definition plain (e : event) : bool :=
  match e with
  | EvStartCreate _ _ | EvStartResume | EvResetStatistics => false
  | _ => true
  end.

Definition at_loop (m : ota_module) : bool :=
  match task m with
  | Some (AtLoop _ _) => true
  | _ => false
  end.

(** A pass of the loop body that reads data and writes it. *)
Definition written_chunk (c : chunk) : Prop :=
  0 < data_read c /\ ota_write c = ESP_OK.

(** An update that fails in its setup, and what is tried afterwards. *)
Definition failed_update : list event :=
  [ EvStart (Some bad_url_config) true;
    EvTask InNothing;
    EvTask (InSetup setup_no_client);
    EvTask InNothing ].

Definition retry_after_failure : list event :=
  [ EvCancel; EvStart (Some example_config) true; EvResetStatistics ].

(** A whole update that succeeds: two full buffers of an image of version
    1.0.1, the end of the source, commit and boot target. *)
Definition good_update : list event :=
  [ EvStart (Some example_config) true;
    EvTask InNothing;
    EvTask (InSetup (setup_ok 2048));
    EvTask (InChunk (image_chunk "1.0.1" ESP_OK));
    EvTask (InChunk (image_chunk "1.0.1" ESP_OK));
    EvTask (InChunk end_of_file);
    EvTask InNothing;
    EvTask (InOtaEnd ESP_OK);
    EvTask (InSetBoot ESP_OK 60000000) ].

(* ====================================================================== *)
(** ** Vocabulary of the further properties of the dispatcher *)

(** A text without a NUL character. *)
Fixpoint nul_free (s : string) : bool :=
  match s with
  | EmptyString => true
  | String c rest => negb (Ascii.eqb c Ascii.zero) && nul_free rest
  end.

(** The literals of [parse_command] in the order of its tests, each with
    the kind it stands for. *)
Definition command_literals : list (string * command_type_t) :=
  [ (WATER_ALIAS, CMD_WATER);
    ("WATER"%string, CMD_WATER);
    ("GET_STATUS"%string, CMD_GET_STATUS);
    ("GET_READING"%string, CMD_GET_READING);
    ("OTA_UPDATE"%string, CMD_OTA_UPDATE);
    ("OTA_STATUS"%string, CMD_OTA_STATUS);
    ("OTA_CANCEL"%string, CMD_OTA_CANCEL) ].

(** The kind of the first literal of a table that begins with [s]. *)
Definition kind_of_prefix {A : Type} (unknown : A)
    (table : list (string * A)) (s : string) : A :=
  match find (fun e => String.prefix s (fst e)) table with
  | Some e => snd e
  | None => unknown
  end.

(** A chain of [strncmp] tests over a table of literals. *)
Fixpoint first_strncmp {A : Type} (unknown : A) (table : list (string * A))
    (s : string) (n : nat) : A :=
  match table with
  | [] => unknown
  | (lit, k) :: rest =>
      if strncmp s lit n =? 0 then k else first_strncmp unknown rest s n
  end.

(** How a pass of the command task counts the command it has served:
    lines 478-484 increment one of the two counters. *)
Definition counted_as_processed (h h' : command_handler) : Prop :=
  processed_count h' = u32 (processed_count h + 1)
  /\ error_count h' = error_count h.

Definition counted_as_error (h h' : command_handler) : Prop :=
  error_count h' = u32 (error_count h + 1)
  /\ processed_count h' = processed_count h.

(** The queue of the handler is live, has the length that
    [command_handler_init] gives it and holds no more than that. *)
Definition queue_within_bounds (h : command_handler) : Prop :=
  exists q,
    command_queue h = QueueLive q
    /\ uxLength q = COMMAND_QUEUE_SIZE
    /\ (List.length (items q) <= COMMAND_QUEUE_SIZE)%nat.

(* ====================================================================== *)
(** ** main.c: the sensor task *)

Definition SAMPLE_COUNT : nat := 10.

(** [read_soil_moisture], lines 455-473: the sum and the mean of the
    samples.  [reading i] is the value that the [i]-th call of
    [adc_oneshot_read] stores; every call succeeds ([ESP_ERROR_CHECK] stops
    the firmware otherwise).  The voltage and the moisture, which the
    function goes on to compute in floating point, are left out. *)
Definition adc_sum (reading : nat -> Z) : Z :=
  fold_left (fun sum i => u32 (sum + reading i)) (seq 0 SAMPLE_COUNT) 0.

Definition read_soil_moisture_raw_adc (reading : nat -> Z) : Z :=
  int32 (adc_sum reading / Z.of_nat SAMPLE_COUNT).

(** The locals of [sensor_task], lines 635-636. *)
Record sensor_times : Type := mk_sensor_times {
  last_data_time : Z;
  last_status_time : Z
}.

(** What a pass of the loop of [sensor_task] sends. *)
Record sensor_sends : Type := mk_sensor_sends {
  sends_data : bool;
  sends_status : bool
}.

(** One pass of the loop of [sensor_task], lines 646-659, once the WiFi bit
    is set; [timer_us] is [esp_timer_get_time()]. *)
Definition sensor_task_pass (timer_us : Z) (t : sensor_times)
  : sensor_sends * sensor_times :=
  let now := u32 (Z.quot timer_us 1000000) in
  let data_due := u32 (now - last_data_time t) >=? 2 in
  let status_due := u32 (now - last_status_time t) >=? 30 in
  (mk_sensor_sends data_due status_due,
   mk_sensor_times (if data_due then now else last_data_time t)
                   (if status_due then now else last_status_time t)).

(* ====================================================================== *)
(** ** main/command_handler.c: the handler with the GPIO commands

    The earlier revision of the handler.  Its kinds [CMD_GPIO_ON] and
    [CMD_GPIO_OFF] are declared by the header of that revision, which the
    repository no longer has; they are taken from their use in the file. *)
Module Gpio.

Inductive command_type_t : Type :=
| CMD_GPIO_ON
| CMD_GPIO_OFF
| CMD_GET_STATUS
| CMD_GET_READING
| CMD_UNKNOWN.

(** [parse_command], lines 108-126. *)
Definition parse_command (command_str : option string) (cmd_len : Z)
  : command_type_t :=
  match command_str with
  | None => CMD_UNKNOWN
  | Some s =>
      if cmd_len <=? 0 then CMD_UNKNOWN
      else
        let n := Z.to_nat cmd_len in
        if strncmp s "GPIO_ON" n =? 0 then CMD_GPIO_ON
        else if strncmp s "GPIO_OFF" n =? 0 then CMD_GPIO_OFF
        else if strncmp s "GET_STATUS" n =? 0 then CMD_GET_STATUS
        else if strncmp s "GET_READING" n =? 0 then CMD_GET_READING
        else CMD_UNKNOWN
  end.

Definition command_literals : list (string * command_type_t) :=
  [ ("GPIO_ON"%string, CMD_GPIO_ON);
    ("GPIO_OFF"%string, CMD_GPIO_OFF);
    ("GET_STATUS"%string, CMD_GET_STATUS);
    ("GET_READING"%string, CMD_GET_READING) ].

End Gpio.

(** No step of the task has reached the division by 0, and the task, if it
    is in its loop, knows a content length other than 0. *)
Definition length_known (m : ota_module) : Prop :=
  match task m with
  | Some (AtLoop ctx _) => binary_file_length ctx <> 0
  | Some Fault => False
  | Some (AtEntry _) | Some (AtSetup _) => False
  | _ => True
  end.

(* ====================================================================== *)
(** * Properties of the update engine *)

(** Case analysis on every test of the goal. *)
Ltac split_ifs :=
  repeat match goal with
         | |- context [if ?b then _ else _] => destruct b eqn:?
         end.

Lemma ota_state_eqb_eq (a b : ota_state_t) :
  ota_state_eqb a b = true <-> a = b.
Proof. destruct a, b; cbn; split; intro H; try reflexivity; discriminate H. Qed.

Lemma ota_state_eqb_refl (a : ota_state_t) : ota_state_eqb a a = true.
Proof. now apply ota_state_eqb_eq. Qed.

Lemma ota_is_updating_in_progress (m : ota_module) :
  ota_is_updating m = in_progress (current_state m).
Proof. unfold ota_is_updating. now destruct (current_state m). Qed.

Lemma byte_eqb_refl (b : byte) : Byte.eqb b b = true.
Proof. now destruct b. Qed.

Lemma memcmp_refl (a : list byte) (n : nat) : memcmp a a n = 0.
Proof.
  revert a. induction n as [|n IH]; intro a; cbn.
  - reflexivity.
  - rewrite byte_eqb_refl. apply IH.
Qed.

Lemma ota_task_run_app (P : platform) (xs ys : list task_input)
    (m : ota_module) :
  ota_task_run P (xs ++ ys) m =
  match ota_task_run P xs m with
  | Some m' => ota_task_run P ys m'
  | None => None
  end.
Proof.
  revert m. induction xs as [|x xs IH]; intro m; cbn.
  - reflexivity.
  - destruct (ota_task_step P x m) as [m'|]; [apply IH | reflexivity].
Qed.

Lemma ota_task_run_cons (P : platform) (i : task_input)
    (rest : list task_input) (m : ota_module) :
  ota_task_run P (i :: rest) m =
  match ota_task_step P i m with
  | Some m' => ota_task_run P rest m'
  | None => None
  end.
Proof. reflexivity. Qed.

(** A task that has left its loop with the state [OTA_STATE_ERROR] ends
    without touching the state, the statistics or the partition. *)
Lemma failed_task_ends (P : platform) (ctx : ota_context_t) (m : ota_module) :
  task m = Some (AfterLoop ctx) ->
  current_state m = OTA_STATE_ERROR ->
  ota_task_run P [InNothing; InNothing] m = Some (set_task None m).
Proof.
  intros Ht Hs. cbn. unfold ota_task_step. rewrite Ht.
  unfold ota_task_after_loop. rewrite Hs. cbn.
  destruct m; reflexivity.
Qed.

(** A call of [ota_start_update] outside Idle returns the module as it
    found it. *)
Lemma ota_start_update_not_idle_state (config : option ota_config_t)
    (task_created : bool) (m : ota_module) :
  current_state m <> OTA_STATE_IDLE ->
  snd (ota_start_update config task_created m) = m.
Proof.
  intro H. unfold ota_start_update, ota_start_update_create.
  destruct config as [cfg|]; [|reflexivity].
  destruct (ota_state_eqb (current_state m) OTA_STATE_IDLE) eqn:E; cbn.
  - apply ota_state_eqb_eq in E. contradiction.
  - reflexivity.
Qed.

(** ** C2 *)

(** C2, counterexample: with a NULL configuration the call made while an
    update is downloading returns [ESP_ERR_INVALID_ARG] (ArgumentError), not
    [ESP_ERR_INVALID_STATE] (StateError): the NULL test of line 96 comes
    before the state test of line 101. *)
Lemma start_null_config_while_downloading :
  current_state module_started <> OTA_STATE_IDLE /\
  fst (ota_start_update None true module_started) = ESP_ERR_INVALID_ARG /\
  fst (ota_start_update None true module_started) <> ESP_ERR_INVALID_STATE.
Proof. repeat split; cbn; discriminate. Qed.

(** C2, amended: a call of [ota_start_update] made while the state is not
    Idle changes nothing at all: state, statistics, cancel flag, task (no
    second worker) and partition are the ones before the call.  It returns
    StateError when the configuration is not NULL and ArgumentError when it
    is NULL. *)
Theorem ota_start_update_not_idle
    (config : option ota_config_t) (task_created : bool) (m : ota_module) :
  current_state m <> OTA_STATE_IDLE ->
  ota_start_update config task_created m =
  (match config with
   | Some _ => ESP_ERR_INVALID_STATE
   | None => ESP_ERR_INVALID_ARG
   end, m).
Proof.
  intro H. unfold ota_start_update, ota_start_update_create.
  destruct config as [cfg|]; [|reflexivity].
  destruct (ota_state_eqb (current_state m) OTA_STATE_IDLE) eqn:E; cbn.
  - apply ota_state_eqb_eq in E. contradiction.
  - reflexivity.
Qed.

Lemma ota_start_update_not_idle_witness :
  ota_start_update (Some example_config) true module_started =
  (ESP_ERR_INVALID_STATE, module_started).
Proof.
  apply (ota_start_update_not_idle (Some example_config) true module_started).
  cbn. discriminate.
Defined.

(** ** C3 *)

(** C3: [ota_cancel_update] returns StateError exactly when the state is
    none of Downloading, Verifying, Installing, and then changes nothing;
    otherwise it sets [cancel_requested] and returns [ESP_OK].  A task that
    finds the flag set at the top of its loop reads no chunk and ends: the
    state is Error, the last result DownloadError, and [failed_updates] has
    been incremented once (as a [uint32_t]). *)
Theorem ota_cancel_update_spec (P : platform) (m : ota_module) :
  (fst (ota_cancel_update m) = ESP_ERR_INVALID_STATE
   <-> in_progress (current_state m) = false) /\
  (in_progress (current_state m) = false ->
   ota_cancel_update m = (ESP_ERR_INVALID_STATE, m)) /\
  (in_progress (current_state m) = true ->
   ota_cancel_update m = (ESP_OK, set_cancel_requested true m)) /\
  (forall ctx n c,
     task m = Some (AtLoop ctx n) ->
     cancel_requested m = true ->
     exists m',
       ota_task_run P [InChunk c; InNothing; InNothing] m = Some m'
       /\ task m' = None
       /\ current_state m' = OTA_STATE_ERROR
       /\ last_result (ota_stats m') = OTA_RESULT_DOWNLOAD_ERROR
       /\ failed_updates (ota_stats m')
          = u32 (failed_updates (ota_stats m) + 1)
       /\ ota_written m' = ota_written m).
Proof.
  unfold ota_cancel_update. rewrite ota_is_updating_in_progress.
  repeat split.
  - destruct (in_progress (current_state m)); cbn; [discriminate | reflexivity].
  - intro H. now rewrite H.
  - intro H. now rewrite H.
  - intro H. now rewrite H.
  - intros ctx n c Ht Hc.
    rewrite ota_task_run_cons. unfold ota_task_step. rewrite Ht.
    unfold ota_task_iteration. rewrite Hc.
    rewrite (failed_task_ends P ctx) by reflexivity.
    eexists. split; [reflexivity|]. cbn. repeat split.
Qed.

Lemma ota_cancel_update_spec_witness :
  exists m',
    ota_task_run esp32c3
      [InChunk (image_chunk "1.0.1" ESP_OK); InNothing; InNothing]
      (snd (ota_cancel_update module_downloading)) = Some m'
    /\ task m' = None
    /\ current_state m' = OTA_STATE_ERROR
    /\ last_result (ota_stats m') = OTA_RESULT_DOWNLOAD_ERROR
    /\ failed_updates (ota_stats m')
       = u32 (failed_updates
                (ota_stats (snd (ota_cancel_update module_downloading))) + 1)
    /\ ota_written m' = ota_written (snd (ota_cancel_update module_downloading)).
Proof.
  eapply (proj2 (proj2 (proj2
            (ota_cancel_update_spec esp32c3
               (snd (ota_cancel_update module_downloading)))))).
  - vm_compute. reflexivity.
  - reflexivity.
Defined.

(** ** The loop body on chunks that are too small for the header check *)

Lemma small_chunk_pass (P : platform) (c : chunk) (ctx : ota_context_t)
    (n : Z) (m : ota_module) :
  task m = Some (AtLoop ctx n) ->
  cancel_requested m = false ->
  image_header_was_checked ctx = false ->
  binary_file_length ctx <> 0 ->
  small_chunk P c ->
  exists n' m',
    ota_task_step P (InChunk c) m = Some m'
    /\ task m' = Some (AtLoop ctx n')
    /\ cancel_requested m' = false
    /\ ota_stats m' = ota_stats m
    /\ ota_written m' = ota_written m ++ [written_bytes c]
    /\ (current_state m = OTA_STATE_DOWNLOADING ->
        current_state m' = OTA_STATE_DOWNLOADING).
Proof.
  intros Ht Hc Hh Hlen (Hpos & Hsmall & Hw).
  unfold ota_task_step. rewrite Ht. unfold ota_task_iteration.
  rewrite Hc.
  assert (E1 : (data_read c <? 0) = false) by (apply Z.ltb_ge; lia).
  assert (E2 : (data_read c >? 0) = true) by (apply Z.gtb_lt; lia).
  rewrite E1, E2. unfold check_image_header. rewrite Hh, Hsmall, Hw. cbn.
  apply Z.eqb_neq in Hlen. rewrite Hlen.
  match goal with
  | |- context [if ?b then _ else _] => destruct b
  end; do 2 eexists; (split; [reflexivity|]); cbn; repeat split; auto.
Qed.

Lemma small_chunks_run (P : platform) (cs : list chunk) :
  forall (ctx : ota_context_t) (n : Z) (m : ota_module),
    task m = Some (AtLoop ctx n) ->
    cancel_requested m = false ->
    image_header_was_checked ctx = false ->
    cs = [] \/ binary_file_length ctx <> 0 ->
    Forall (small_chunk P) cs ->
    exists n' m',
      ota_task_run P (map InChunk cs) m = Some m'
      /\ task m' = Some (AtLoop ctx n')
      /\ cancel_requested m' = false
      /\ ota_stats m' = ota_stats m
      /\ ota_written m' = ota_written m ++ map written_bytes cs.
Proof.
  induction cs as [|c cs IH]; intros ctx n m Ht Hc Hh Hlen Hall.
  - exists n, m. cbn. rewrite app_nil_r. repeat split; assumption.
  - destruct Hlen as [Hnil | Hlen]; [discriminate Hnil|].
    inversion Hall as [|c' cs' Hsmall Hrest]; subst.
    destruct (small_chunk_pass P c ctx n m Ht Hc Hh Hlen Hsmall)
      as (n1 & m1 & Hstep & Ht1 & Hc1 & Hst1 & Hw1 & _).
    destruct (IH ctx n1 m1 Ht1 Hc1 Hh (or_intror Hlen) Hrest)
      as (n2 & m2 & Hrun & Ht2 & Hc2 & Hst2 & Hw2).
    exists n2, m2. cbn [map]. rewrite ota_task_run_cons, Hstep.
    repeat split; try assumption.
    + congruence.
    + rewrite Hw2, Hw1, <- app_assoc. reflexivity.
Qed.

(** ** The version check of the first chunk *)

(** Where the test of line 247 holds, the running version is rejected.  The
    task stands at the top of its loop and has not checked a header yet.
    After any number of chunks that are too small for the test of line 247,
    the first chunk that passes this test carries, at the place of the
    descriptor, a version field equal byte for byte to the one of the running
    application.  Then the update ends: the state is Error, the last result
    VerifyError, [failed_updates] has been incremented once, the task is gone
    and takes no further step, and [esp_ota_write] has received the earlier
    small chunks only, not this chunk and nothing after it.  The test of the
    code is strict: [data_read > sizeof(header) + sizeof(segment header) +
    sizeof(descriptor)]. *)
Theorem same_version_rejected_before_write (P : platform)
    (smalls : list chunk) (c : chunk) (ctx : ota_context_t) (n : Z)
    (m : ota_module) :
  task m = Some (AtLoop ctx n) ->
  cancel_requested m = false ->
  image_header_was_checked ctx = false ->
  smalls = [] \/ binary_file_length ctx <> 0 ->
  Forall (small_chunk P) smalls ->
  0 < data_read c ->
  holds_app_desc P (data_read c) = true ->
  app_version (app_desc_of_buffer P (ota_write_data c)) = running_version P ->
  exists m',
    ota_task_run P (map InChunk smalls ++ [InChunk c; InNothing; InNothing]) m
    = Some m'
    /\ task m' = None
    /\ (forall i, ota_task_step P i m' = None)
    /\ current_state m' = OTA_STATE_ERROR
    /\ last_result (ota_stats m') = OTA_RESULT_VERIFY_ERROR
    /\ failed_updates (ota_stats m') = u32 (failed_updates (ota_stats m) + 1)
    /\ ota_written m' = ota_written m ++ map written_bytes smalls.
Proof.
  intros Ht Hc Hh Hlen Hall Hpos Hbig Hver.
  destruct (small_chunks_run P smalls ctx n m Ht Hc Hh Hlen Hall)
    as (n1 & m1 & Hrun & Ht1 & Hc1 & Hst1 & Hw1).
  rewrite ota_task_run_app, Hrun, ota_task_run_cons.
  unfold ota_task_step. rewrite Ht1. unfold ota_task_iteration.
  rewrite Hc1.
  assert (E1 : (data_read c <? 0) = false) by (apply Z.ltb_ge; lia).
  assert (E2 : (data_read c >? 0) = true) by (apply Z.gtb_lt; lia).
  rewrite E1, E2. unfold check_image_header. rewrite Hh, Hbig.
  unfold ota_validate_image_header. rewrite Hver, memcmp_refl. cbn [negb andb Z.eqb is_ESP_OK].
  rewrite (failed_task_ends P ctx) by reflexivity.
  eexists. split; [reflexivity|]. cbn. rewrite Hst1, Hw1.
  repeat split.
Qed.

Lemma same_version_rejected_before_write_witness :
  exists m',
    ota_task_run esp32c3
      (map InChunk [short_chunk]
       ++ [InChunk (image_chunk "1.0.0" ESP_OK); InNothing; InNothing])
      module_downloading = Some m'
    /\ task m' = None
    /\ (forall i, ota_task_step esp32c3 i m' = None)
    /\ current_state m' = OTA_STATE_ERROR
    /\ last_result (ota_stats m') = OTA_RESULT_VERIFY_ERROR
    /\ failed_updates (ota_stats m')
       = u32 (failed_updates (ota_stats module_downloading) + 1)
    /\ ota_written m'
       = ota_written module_downloading ++ map written_bytes [short_chunk].
Proof.
  eapply (same_version_rejected_before_write esp32c3 [short_chunk]
            (image_chunk "1.0.0" ESP_OK)).
  - vm_compute. reflexivity.
  - reflexivity.
  - reflexivity.
  - right. vm_compute. discriminate.
  - constructor; [|constructor]. repeat split; vm_compute; reflexivity.
  - vm_compute. reflexivity.
  - reflexivity.
  - vm_compute. reflexivity.
Defined.

(** C4, the code at the boundary of the test of line 247.  The first chunk
    has exactly [sizeof(header) + sizeof(segment header) +
    sizeof(descriptor)] bytes: it holds the whole descriptor, and the version
    field of that descriptor equals the one of the running application, so
    that [ota_validate_image_header] would answer [ESP_FAIL] for it.  The
    test of line 247 is strict and has no [else]: the descriptor is not
    looked at, the chunk is written to the partition, no failure is counted,
    the state stays Downloading and the task is back at the top of its loop
    with the header still unchecked. *)
Theorem exact_size_first_chunk_is_written_unchecked (P : platform)
    (c : chunk) (ctx : ota_context_t) (n : Z) (m : ota_module) :
  task m = Some (AtLoop ctx n) ->
  current_state m = OTA_STATE_DOWNLOADING ->
  cancel_requested m = false ->
  image_header_was_checked ctx = false ->
  binary_file_length ctx <> 0 ->
  0 < data_read c ->
  data_read c
  = sizeof_esp_image_header_t P + sizeof_esp_image_segment_header_t P
    + sizeof_esp_app_desc_t P ->
  app_version (app_desc_of_buffer P (ota_write_data c)) = running_version P ->
  ota_write c = ESP_OK ->
  ota_validate_image_header P
    (Some (app_desc_of_buffer P (ota_write_data c))) = ESP_FAIL
  /\ exists n' m',
       ota_task_step P (InChunk c) m = Some m'
       /\ task m' = Some (AtLoop ctx n')
       /\ current_state m' = OTA_STATE_DOWNLOADING
       /\ ota_stats m' = ota_stats m
       /\ ota_written m' = ota_written m ++ [written_bytes c].
Proof.
  intros Ht Hs Hc Hh Hlen Hpos Hsize Hver Hw. split.
  - unfold ota_validate_image_header. now rewrite Hver, memcmp_refl.
  - assert (Hsmall : holds_app_desc P (data_read c) = false).
    { unfold holds_app_desc. rewrite Hsize, Z.gtb_ltb.
      apply Z.ltb_irrefl. }
    destruct (small_chunk_pass P c ctx n m Ht Hc Hh Hlen
                (conj Hpos (conj Hsmall Hw)))
      as (n' & m' & Hstep & Ht' & _ & Hst & Hwr & Hstate).
    exists n', m'. repeat split; auto.
Qed.

Lemma exact_size_first_chunk_is_written_unchecked_witness :
  ota_validate_image_header esp32c3
    (Some (app_desc_of_buffer esp32c3
             (ota_write_data (exact_size_chunk "1.0.0")))) = ESP_FAIL
  /\ exists n' m',
       ota_task_step esp32c3 (InChunk (exact_size_chunk "1.0.0"))
         module_downloading = Some m'
       /\ task m'
          = Some (AtLoop (mk_ctx example_config 2048 false app_desc_zero) n')
       /\ current_state m' = OTA_STATE_DOWNLOADING
       /\ ota_stats m' = ota_stats module_downloading
       /\ ota_written m'
          = ota_written module_downloading
            ++ [written_bytes (exact_size_chunk "1.0.0")].
Proof.
  apply (exact_size_first_chunk_is_written_unchecked esp32c3
           (exact_size_chunk "1.0.0")
           (mk_ctx example_config 2048 false app_desc_zero) 0
           module_downloading).
  - reflexivity.
  - reflexivity.
  - reflexivity.
  - reflexivity.
  - cbn. lia.
  - cbn. lia.
  - reflexivity.
  - vm_compute. reflexivity.
  - reflexivity.
Defined.

(** The whole run at that input: the first read returns the 288 bytes that
    end with the descriptor, which carries the running version 1.0.0; the
    second read returns 1024 bytes of the image body.  The update ends in
    Success with no failure counted and every byte written. *)
Lemma exact_size_first_chunk_update_succeeds :
  exists m',
    ota_task_run esp32c3 (exact_size_download "1.0.0") module_started
    = Some m'
    /\ current_state m' = OTA_STATE_SUCCESS
    /\ last_result (ota_stats m') = OTA_RESULT_SUCCESS
    /\ failed_updates (ota_stats m') = 0
    /\ successful_updates (ota_stats m') = 1
    /\ ota_written m'
       = [written_bytes (exact_size_chunk "1.0.0"); written_bytes body_chunk].
Proof.
  eexists. split; [vm_compute; reflexivity|]. repeat split.
Qed.

(** ** C8 *)

(** Failing to open the connection ends the setup with NetworkError, a
    content length that is negative as an [int] with DownloadError; in both
    cases the task goes to [ota_end] without entering the loop. *)
Lemma setup_open_or_length_failure (env : setup_env) (ctx : ota_context_t)
    (m : ota_module) :
  http_client_init env = true ->
  next_update_partition env = true ->
  ota_begin env = ESP_OK ->
  (http_client_open env <> ESP_OK ->
   ota_task_setup env ctx m
   = leave AtOtaEndLabel (ota_fail OTA_RESULT_NETWORK_ERROR m))
  /\ (http_client_open env = ESP_OK ->
      int32 (fetch_headers env) < 0 ->
      ota_task_setup env ctx m
      = leave AtOtaEndLabel (ota_fail OTA_RESULT_DOWNLOAD_ERROR m)).
Proof.
  intros H1 H2 H3. unfold ota_task_setup. rewrite H1, H2, H3.
  cbn -[int32]. split.
  - intro H. destruct (http_client_open env); try reflexivity. contradiction.
  - intros H Hneg. rewrite H. cbn -[int32].
    assert (E : (int32 (fetch_headers env) <? 0) = true)
      by (apply Z.ltb_lt; lia).
    now rewrite E.
Qed.

(** A content length that is 0 as an [int] (0 itself, or a multiple of 2^32)
    passes the test of line 205. *)
Lemma setup_accepts_zero_length (env : setup_env) (ctx : ota_context_t)
    (m : ota_module) :
  http_client_init env = true ->
  next_update_partition env = true ->
  ota_begin env = ESP_OK ->
  http_client_open env = ESP_OK ->
  malloc_buffer env = true ->
  int32 (fetch_headers env) = 0 ->
  ota_task_setup env ctx m
  = leave (AtLoop (mk_ctx (config ctx) 0 (image_header_was_checked ctx)
                          (new_app_info ctx)) 0) m.
Proof.
  intros H1 H2 H3 H4 H5 H6. unfold ota_task_setup.
  now rewrite H1, H2, H3, H4, H5, H6.
Qed.

(** With a length of 0 the first chunk that is written reaches the division
    of line 276 with divisor 0. *)
Lemma zero_length_pass_faults (P : platform) (c : chunk)
    (ctx : ota_context_t) (n : Z) (m : ota_module) :
  cancel_requested m = false ->
  binary_file_length ctx = 0 ->
  0 < data_read c ->
  holds_app_desc P (data_read c) = false ->
  ota_write c = ESP_OK ->
  task (ota_task_iteration P c ctx n m) = Some Fault.
Proof.
  intros Hc Hlen Hpos Hsmall Hw. unfold ota_task_iteration. rewrite Hc.
  assert (E1 : (data_read c <? 0) = false) by (apply Z.ltb_ge; lia).
  assert (E2 : (data_read c >? 0) = true) by (apply Z.gtb_lt; lia).
  rewrite E1, E2. unfold check_image_header. rewrite Hsmall, andb_false_r.
  rewrite Hw, Hlen. reflexivity.
Qed.

(** With a length other than 0 no pass reaches the division with divisor 0,
    and the length stays what it is. *)
Lemma nonzero_length_pass_is_defined (P : platform) (c : chunk)
    (ctx : ota_context_t) (n : Z) (m : ota_module) :
  binary_file_length ctx <> 0 ->
  task (ota_task_iteration P c ctx n m) <> Some Fault
  /\ forall ctx' n',
       task (ota_task_iteration P c ctx n m) = Some (AtLoop ctx' n') ->
       binary_file_length ctx' = binary_file_length ctx.
Proof.
  intro Hlen. unfold ota_task_iteration, check_image_header.
  apply Z.eqb_neq in Hlen.
  repeat match goal with
         | |- context [if ?b then _ else _] =>
             destruct b eqn:?; cbn -[Z.quot Z.rem int32]
         end;
    try rewrite Hlen; cbn -[Z.quot Z.rem int32];
    (split; [discriminate|]); intros ctx' n' H;
    repeat match type of H with
           | context [if ?b then _ else _] => destruct b
           end;
    cbn in H; try discriminate H; injection H as <- _; reflexivity.
Qed.

(** C8, the code at the failing input: [esp_http_client_fetch_headers]
    returns 0 (a source that announces no length).  The setup does not end in
    Error: the task enters its loop in state Downloading with
    [binary_file_length] 0 and no failure counted; the first chunk that is
    read and written then reaches [(binary_file_downloaded * 100) /
    ota_ctx.binary_file_length] with divisor 0. *)
Theorem zero_content_length_divides_by_zero :
  exists m1 ctx m2,
    ota_task_run esp32c3 [InNothing; InSetup (setup_ok 0)] module_started
    = Some m1
    /\ task m1 = Some (AtLoop ctx 0)
    /\ binary_file_length ctx = 0
    /\ current_state m1 = OTA_STATE_DOWNLOADING
    /\ failed_updates (ota_stats m1) = 0
    /\ ota_task_step esp32c3 (InChunk short_chunk) m1 = Some m2
    /\ task m2 = Some Fault.
Proof.
  do 3 eexists. split; [vm_compute; reflexivity|].
  split; [reflexivity|]. repeat split.
Qed.

(** ** C9 *)

(** The first read returns four bytes, too few for the descriptor.  No error
    is raised: the four bytes are written, the next read reports the end of
    the source, and the update ends in Success with no failure counted. *)
Lemma short_first_chunk_update_succeeds :
  holds_app_desc esp32c3 (data_read short_chunk) = false
  /\ exists m',
       ota_task_run esp32c3 short_download module_started = Some m'
       /\ current_state m' = OTA_STATE_SUCCESS
       /\ last_result (ota_stats m') = OTA_RESULT_SUCCESS
       /\ failed_updates (ota_stats m') = 0
       /\ ota_written m' = [[x01; x02; x03; x04]].
Proof.
  split; [reflexivity|]. eexists. split; [vm_compute; reflexivity|].
  repeat split.
Qed.

(** An image that carries the running version 1.0.0 and arrives in a read of
    100 bytes followed by one of 1024 bytes.  The first chunk is too small
    for the test of line 247 and is written unchecked; the second chunk
    passes the test, but the place at which line 248 looks for the
    descriptor now lies 100 bytes further into the image, where the version
    is not.  The whole image is written and the update ends in Success. *)
Lemma split_image_of_running_version_is_installed :
  app_version (app_desc_of_buffer esp32c3 (image_of_version "1.0.0"))
  = running_version esp32c3
  /\ exists m',
       ota_task_run esp32c3 (split_download "1.0.0") module_started = Some m'
       /\ current_state m' = OTA_STATE_SUCCESS
       /\ last_result (ota_stats m') = OTA_RESULT_SUCCESS
       /\ failed_updates (ota_stats m') = 0
       /\ successful_updates (ota_stats m') = 1
       /\ List.concat (ota_written m') = image_of_version "1.0.0".
Proof.
  split; [vm_compute; reflexivity|].
  eexists. split; [vm_compute; reflexivity|]. repeat split.
Qed.

(** C9, the code at a short first read: a first chunk that is too small for
    the test of line 247 does not end the update, because that test has no
    [else].  When [esp_ota_write] accepts the chunk (and the content length
    is not 0) it is written unchecked, the state stays Downloading and not
    Error, no failure is counted (the statistics are unchanged), and the
    task is back at the top of its loop with the header still unchecked. *)
Theorem short_first_chunk_is_written (P : platform) (c : chunk)
    (ctx : ota_context_t) (n : Z) (m : ota_module) :
  task m = Some (AtLoop ctx n) ->
  current_state m = OTA_STATE_DOWNLOADING ->
  cancel_requested m = false ->
  image_header_was_checked ctx = false ->
  binary_file_length ctx <> 0 ->
  0 < data_read c ->
  holds_app_desc P (data_read c) = false ->
  ota_write c = ESP_OK ->
  exists n' m',
    ota_task_step P (InChunk c) m = Some m'
    /\ task m' = Some (AtLoop ctx n')
    /\ image_header_was_checked ctx = false
    /\ current_state m' = OTA_STATE_DOWNLOADING
    /\ ota_stats m' = ota_stats m
    /\ ota_written m' = ota_written m ++ [written_bytes c].
Proof.
  intros Ht Hs Hc Hh Hlen Hpos Hsmall Hw.
  destruct (small_chunk_pass P c ctx n m Ht Hc Hh Hlen
              (conj Hpos (conj Hsmall Hw)))
    as (n' & m' & Hstep & Ht' & _ & Hst & Hwr & Hstate).
  exists n', m'. repeat split; auto.
Qed.

Lemma short_first_chunk_is_written_witness :
  exists n' m',
    ota_task_step esp32c3 (InChunk short_chunk) module_downloading = Some m'
    /\ task m' = Some (AtLoop (mk_ctx example_config 2048 false app_desc_zero) n')
    /\ image_header_was_checked
         (mk_ctx example_config 2048 false app_desc_zero) = false
    /\ current_state m' = OTA_STATE_DOWNLOADING
    /\ ota_stats m' = ota_stats module_downloading
    /\ ota_written m'
       = ota_written module_downloading ++ [written_bytes short_chunk].
Proof.
  apply (short_first_chunk_is_written esp32c3 short_chunk
           (mk_ctx example_config 2048 false app_desc_zero) 0
           module_downloading).
  - reflexivity.
  - reflexivity.
  - reflexivity.
  - reflexivity.
  - cbn. lia.
  - cbn. lia.
  - reflexivity.
  - reflexivity.
Defined.

(** ** C1 *)

Lemma dag_move_refl (a : ota_state_t) : dag_move a a = true.
Proof. now destruct a. Qed.

Lemma states_along_head (P : platform) (es : list event) (m : ota_module) :
  exists l, states_along P es m = current_state m :: l.
Proof. destruct es; cbn; eexists; reflexivity. Qed.

(** The API leaves a terminal state alone, whatever else the module holds. *)
Lemma api_keeps_terminal_state (config : option ota_config_t)
    (task_created : bool) (m : ota_module) :
  current_state m = OTA_STATE_SUCCESS \/ current_state m = OTA_STATE_ERROR ->
  current_state (snd (ota_start_update config task_created m))
  = current_state m
  /\ current_state (snd (ota_cancel_update m)) = current_state m
  /\ current_state (snd (ota_reset_statistics m)) = current_state m.
Proof.
  intro H. repeat split.
  - rewrite ota_start_update_not_idle_state; [reflexivity|].
    destruct H as [H|H]; rewrite H; discriminate.
  - unfold ota_cancel_update. now destruct (ota_is_updating m).
Qed.

(** Every step of the task moves the state along the graph and re-establishes
    what the next step relies on. *)
Lemma task_step_follows_dag (P : platform) (i : task_input)
    (m m' : ota_module) :
  task_inv m ->
  ota_task_step P i m = Some m' ->
  task_inv m' /\ dag_move (current_state m) (current_state m') = true.
Proof.
  intros [Hs Hinv] Hstep. unfold ota_task_step in Hstep.
  destruct (task m) as [[cfg|ctx|ctx n|ctx|ctx|ctx| | | ]|] eqn:Ht;
    destruct i; try discriminate Hstep; injection Hstep as <-.
  - unfold task_inv. cbn. rewrite Hinv. auto.
  - unfold ota_task_setup.
    split_ifs; unfold task_inv; cbn; rewrite ?Hinv; auto using dag_move_refl.
  - unfold ota_task_iteration, check_image_header.
    split_ifs; unfold task_inv; cbn -[Z.quot Z.rem int32]; rewrite ?Hinv;
      auto using dag_move_refl.
  - unfold ota_task_after_loop.
    destruct (ota_state_eqb (current_state m) OTA_STATE_ERROR) eqn:E; cbn.
    + unfold task_inv; cbn. auto using dag_move_refl.
    + destruct Hinv as [Hinv|Hinv]; rewrite Hinv in *; [|discriminate E].
      unfold task_inv; cbn. auto.
  - unfold ota_task_ota_end.
    split_ifs; unfold task_inv; cbn; rewrite ?Hinv; auto.
  - unfold ota_task_set_boot.
    split_ifs; unfold task_inv; cbn -[Z.quot u32]; rewrite ?Hinv; auto.
  - unfold task_inv, ota_task_exit; cbn. auto using dag_move_refl.
Qed.

(** The same for every event of an execution in which no start is
    interrupted. *)
Lemma step_follows_dag (P : platform) (e : event) (m m' : ota_module) :
  task_inv m ->
  uninterrupted e = true ->
  step P e m = Some m' ->
  task_inv m' /\ dag_move (current_state m) (current_state m') = true.
Proof.
  intros Hinv Hu Hstep. pose proof Hinv as [Hs Ht].
  destruct e as [cf created|cf created| | | | |i];
    try discriminate Hu; cbn in Hstep; rewrite ?Hs in Hstep.
  - injection Hstep as <-.
    unfold ota_start_update, ota_start_update_create.
    destruct cf as [cfg|]; [|cbn; auto using dag_move_refl].
    destruct (ota_state_eqb (current_state m) OTA_STATE_IDLE) eqn:E; cbn.
    + apply ota_state_eqb_eq in E.
      destruct created; cbn.
      * unfold task_inv; cbn. rewrite E. auto.
      * split; [exact Hinv | apply dag_move_refl].
    + auto using dag_move_refl.
  - injection Hstep as <-. unfold ota_cancel_update.
    destruct (ota_is_updating m); cbn; auto using dag_move_refl.
  - injection Hstep as <-. cbn. auto using dag_move_refl.
  - injection Hstep as <-. auto using dag_move_refl.
  - now apply (task_step_follows_dag P i).
Qed.

(** What holds of the state graph: from boot, along every execution in which
    no call of [ota_start_update] is interrupted between [xTaskCreate] and
    line 130, every change of [current_state] is an edge of the graph; in
    particular nothing leaves Success or Error. *)
Theorem uninterrupted_execution_follows_dag (P : platform) (es : list event) :
  forallb uninterrupted es = true ->
  dag_path (states_along P es module_boot) = true.
Proof.
  assert (G : forall m, task_inv m -> forallb uninterrupted es = true ->
                        dag_path (states_along P es m) = true).
  { induction es as [|e es IH]; intros m Hinv Hall.
    - reflexivity.
    - cbn in Hall. apply andb_prop in Hall as [Hu Hall].
      cbn [states_along]. destruct (step P e m) as [m'|] eqn:Hstep.
      + destruct (step_follows_dag P e m m' Hinv Hu Hstep) as [Hinv' Hmove].
        specialize (IH m' Hinv' Hall).
        destruct (states_along_head P es m') as [l Hl].
        rewrite Hl in *.
        change (dag_move (current_state m) (current_state m')
                && dag_path (current_state m' :: l) = true).
        now rewrite Hmove, IH.
      + reflexivity. }
  apply G. split; reflexivity.
Qed.

(** C1, the code at the failing input.  The command task (priority 4) calls
    [ota_start_update] in Idle with a locator that [esp_http_client_init]
    rejects.  [xTaskCreate] (line 116) makes [ota_task] (priority 5) run
    before the caller reaches line 130: the task writes Downloading, fails,
    writes Error and deletes itself.  The caller then executes line 131 and
    writes Downloading over Error: the state has left a terminal state
    without a restart, by a move that is no edge of the graph, and the module
    stays in Downloading with no task to end the update. *)
Theorem interrupted_start_leaves_error_state :
  states_along esp32c3 interrupted_start module_boot
  = [ OTA_STATE_IDLE; OTA_STATE_IDLE; OTA_STATE_DOWNLOADING;
      OTA_STATE_ERROR; OTA_STATE_ERROR; OTA_STATE_DOWNLOADING ]
  /\ dag_move OTA_STATE_ERROR OTA_STATE_DOWNLOADING = false
  /\ dag_path (states_along esp32c3 interrupted_start module_boot) = false
  /\ exists m,
       run esp32c3 interrupted_start module_boot = Some m
       /\ current_state m = OTA_STATE_DOWNLOADING
       /\ task m = None
       /\ last_result (ota_stats m) = OTA_RESULT_NETWORK_ERROR
       /\ forall i, ota_task_step esp32c3 i m = None.
Proof.
  repeat split. eexists. split; [vm_compute; reflexivity|]. repeat split.
Qed.

(* ====================================================================== *)
(** * Properties of the command dispatcher *)

(** ** C5 *)

(** [strncmp] over the length of its first argument cannot tell a prefix of
    the second argument from the second argument itself. *)
Lemma strncmp_prefix (s : string) :
  forall lit : string,
    String.prefix s lit = true ->
    strncmp s lit (String.length s) = 0.
Proof.
  induction s as [|c s IH]; intros lit Hp; cbn.
  - reflexivity.
  - destruct lit as [|c' lit]; cbn in Hp; [discriminate Hp|].
    destruct (ascii_dec c c') as [<-|Hne]; [|discriminate Hp].
    cbn. rewrite Ascii.eqb_refl.
    destruct (Ascii.eqb c Ascii.zero); [reflexivity | now apply IH].
Qed.

(** What [parse_command] does with the literals and with the inputs that the
    specification names: each literal, given with its own length, yields its
    kind; "unknown-xyz", the empty text and NULL yield [CMD_UNKNOWN]. *)
Lemma parse_command_literals :
  parse_command (Some "WATER"%string) 5 = CMD_WATER
  /\ parse_command (Some WATER_ALIAS) 6 = CMD_WATER
  /\ parse_command (Some "GET_STATUS"%string) 10 = CMD_GET_STATUS
  /\ parse_command (Some "GET_READING"%string) 11 = CMD_GET_READING
  /\ parse_command (Some "OTA_UPDATE"%string) 10 = CMD_OTA_UPDATE
  /\ parse_command (Some "OTA_STATUS"%string) 10 = CMD_OTA_STATUS
  /\ parse_command (Some "OTA_CANCEL"%string) 10 = CMD_OTA_CANCEL
  /\ parse_command (Some "unknown-xyz"%string) 11 = CMD_UNKNOWN
  /\ parse_command (Some EmptyString) 0 = CMD_UNKNOWN
  /\ (forall n, parse_command None n = CMD_UNKNOWN).
Proof. repeat split. Qed.

(** Every text that begins "WATER", cut to a length between 1 and 5, is the
    watering command. *)
Lemma parse_command_water_prefix (s : string) :
  s <> EmptyString ->
  String.prefix s "WATER" = true ->
  parse_command (Some s) (Z.of_nat (String.length s)) = CMD_WATER.
Proof.
  intros Hne Hp. unfold parse_command.
  destruct s as [|c s]; [contradiction|].
  assert (E : (Z.of_nat (String.length (String c s)) <=? 0) = false)
    by (apply Z.leb_gt; cbn [String.length]; lia).
  rewrite E, Nat2Z.id, (strncmp_prefix (String c s) "WATER" Hp).
  now rewrite orb_true_r.
Qed.

(** C5, the code at the failing input: the comparison is [strncmp] over the
    length of the received text, so a text that is only the beginning of a
    literal is taken for the literal.  "W" is no literal of the set, and
    [parse_command] yields [CMD_WATER] for it, not [CMD_UNKNOWN]; "GET_"
    yields [CMD_GET_STATUS], "O" yields [CMD_OTA_UPDATE]. *)
Theorem parse_command_accepts_prefix :
  parse_command (Some "W"%string) 1 = CMD_WATER
  /\ parse_command (Some "GET_"%string) 4 = CMD_GET_STATUS
  /\ parse_command (Some "O"%string) 1 = CMD_OTA_UPDATE
  /\ parse_command (Some "W"%string) 1 <> CMD_UNKNOWN.
Proof. repeat split. discriminate. Qed.

(** ** C6 *)

Lemma command_handler_init_queue :
  command_handler_init true true true handler_boot
  = (ESP_OK,
     set_command_queue (QueueLive (mk_queue COMMAND_QUEUE_SIZE [])) handler_boot).
Proof. reflexivity. Qed.

(** A queue never holds more than its length. *)
Lemma xQueueSend_bounded (q : queue) (item : mqtt_command_t) :
  (List.length (items q) <= uxLength q)%nat ->
  (List.length (items (snd (xQueueSend q item))) <= uxLength q)%nat
  /\ uxLength (snd (xQueueSend q item)) = uxLength q.
Proof.
  intro H. unfold xQueueSend.
  destruct (Nat.ltb_spec (List.length (items q)) (uxLength q)); cbn.
  - rewrite length_app. cbn. lia.
  - auto.
Qed.

(** C6: the queue that [command_handler_init] creates has length
    [COMMAND_QUEUE_SIZE], which is 10.  On such a queue [enqueue_command]
    returns at once in every case; with 10 commands waiting it returns
    [ESP_ERR_TIMEOUT] (Busy) and leaves the handler, queue included, as it
    was; with fewer it returns [ESP_OK] and the queue is the old one with the
    new command at its end, so that [xQueueReceive] still delivers the older
    commands first.  The new command is the one given: its kind is
    [cmd_type], its payload the given text cut to the 63 characters that its
    field holds (empty for NULL), its time stamp the time of the call in
    seconds. *)
Theorem enqueue_command_bounded (cmd_type : command_type_t)
    (payload : option string) (now_us : Z) (h : command_handler) (q : queue) :
  command_queue h = QueueLive q ->
  uxLength q = COMMAND_QUEUE_SIZE ->
  COMMAND_QUEUE_SIZE = 10%nat
  /\ (List.length (items q) = 10%nat ->
      enqueue_command cmd_type payload now_us h = Some (ESP_ERR_TIMEOUT, h))
  /\ ((List.length (items q) < 10)%nat ->
      exists command,
        command
        = mk_command cmd_type
            (match payload with
             | Some text => string_firstn 63 text
             | None => EmptyString
             end)
            (u32 (Z.quot now_us 1000000))
        /\ enqueue_command cmd_type payload now_us h
           = Some (ESP_OK,
                   set_command_queue
                     (QueueLive (mk_queue 10 (items q ++ [command]))) h)
        /\ xQueueReceive (mk_queue 10 (items q ++ [command]))
           = match items q with
             | [] => (Some command, mk_queue 10 [])
             | oldest :: rest =>
                 (Some oldest, mk_queue 10 (rest ++ [command]))
             end).
Proof.
  intros Hq Hlen. split; [reflexivity|].
  unfold enqueue_command, xQueueSend. rewrite Hq, Hlen. split.
  - intro Hfull. rewrite Hfull. reflexivity.
  - intro Hroom.
    destruct (Nat.ltb_spec (List.length (items q)) COMMAND_QUEUE_SIZE)
      as [_|Hge]; [|unfold COMMAND_QUEUE_SIZE in Hge; lia].
    eexists. split; [reflexivity|].
    split; [reflexivity|]. unfold xQueueReceive. cbn.
    destruct (items q); reflexivity.
Qed.

Lemma enqueue_command_bounded_witness :
  enqueue_command CMD_WATER None 7000000 handler_full
  = Some (ESP_ERR_TIMEOUT, handler_full)
  /\ enqueue_command CMD_OTA_UPDATE
       (Some "http://192.168.1.10/firmware.bin"%string) 7000000 handler_ready
     = Some (ESP_OK,
             set_command_queue
               (QueueLive
                  (mk_queue 10
                     [mk_command CMD_OTA_UPDATE
                        "http://192.168.1.10/firmware.bin" 7]))
               handler_ready).
Proof.
  split.
  - apply (proj1 (proj2 (enqueue_command_bounded CMD_WATER None 7000000
                           handler_full
                           (mk_queue COMMAND_QUEUE_SIZE
                              (repeat (make_command CMD_GET_STATUS None 0) 10))
                           eq_refl eq_refl))).
    reflexivity.
  - destruct (proj2 (proj2 (enqueue_command_bounded CMD_OTA_UPDATE
                              (Some "http://192.168.1.10/firmware.bin"%string)
                              7000000 handler_ready
                              (mk_queue COMMAND_QUEUE_SIZE [])
                              eq_refl eq_refl)) ltac:(cbn; lia))
      as (command & -> & Hcall & _).
    exact Hcall.
Defined.

(** ** C7 *)



Lemma rejection_is_an_error (mq : mqtt_env) (e : esp_err_t) :
  e <> ESP_OK ->
  (if is_ESP_OK (send_mqtt_response mq) then e else send_mqtt_response mq)
  <> ESP_OK.
Proof.
  intro He. destruct (send_mqtt_response mq); cbn; try discriminate.
  exact He.
Qed.



(** ** C10 *)

Lemma count_result_queue (r : esp_err_t) (h : command_handler) :
  command_queue (count_result r h) = command_queue h.
Proof. unfold count_result. now destruct (is_ESP_OK r). Qed.

(** The command that the MQTT callback enqueues has an empty payload. *)
Lemma make_command_null_payload (cmd_type : command_type_t) (now_us : Z) :
  data (make_command cmd_type None now_us) = EmptyString.
Proof. reflexivity. Qed.

(** Serving a command with an empty payload leaves the state, the task and
    the statistics of the update module alone. *)
Lemma execute_command_empty_payload (P : platform) (c : mqtt_command_t)
    (mq : mqtt_env) (task_created : bool) (d : device) :
  data c = EmptyString ->
  command_queue (handler (snd (execute_command P c mq task_created d)))
  = command_queue (handler d)
  /\ current_state (ota (snd (execute_command P c mq task_created d)))
     = current_state (ota d)
  /\ task (ota (snd (execute_command P c mq task_created d))) = task (ota d)
  /\ ota_stats (ota (snd (execute_command P c mq task_created d)))
     = ota_stats (ota d).
Proof.
  intro Hdata. unfold execute_command. rewrite Hdata.
  destruct (type c); cbn; auto.
  unfold execute_ota_cancel_command, ota_cancel_update.
  destruct (ota_is_updating (ota d)); cbn; auto.
Qed.

Lemma bus_step_keeps_engine (P : platform) (e : bus_event) (d d' : device) :
  payloads_empty (handler d) ->
  bus_step P e d = Some d' ->
  payloads_empty (handler d')
  /\ current_state (ota d') = current_state (ota d)
  /\ task (ota d') = task (ota d)
  /\ ota_stats (ota d') = ota_stats (ota d).
Proof.
  intros Hpe Hstep. destruct e as [ed len now | mq created]; cbn in Hstep.
  - unfold mqtt_event_data in Hstep.
    destruct (negb (is_CMD_UNKNOWN (parse_command ed len)));
      [|injection Hstep as <-; auto].
    unfold enqueue_command in Hstep. unfold payloads_empty in *.
    destruct (command_queue (handler d)) as [|q|] eqn:Hq;
      [injection Hstep as <-; cbn; rewrite Hq; auto | | discriminate Hstep].
    unfold xQueueSend in Hstep.
    destruct (List.length (items q) <? uxLength q)%nat;
      injection Hstep as <-; cbn.
    + split; [|auto]. apply Forall_app. split; [assumption|].
      constructor; [reflexivity | constructor].
    + rewrite Hq. auto.
  - unfold command_handler_task_pass in Hstep.
    destruct (command_queue (handler d)) as [|q|] eqn:Hq;
      try discriminate Hstep.
    unfold payloads_empty in Hpe. rewrite Hq in Hpe.
    unfold xQueueReceive in Hstep.
    destruct (items q) as [|c rest] eqn:Hi.
    + injection Hstep as <-. unfold payloads_empty. rewrite Hq, Hi. auto.
    + inversion Hpe as [|c' rest' Hc Hrest]; subst.
      set (d1 := mk_device
                   (set_command_queue (QueueLive (mk_queue (uxLength q) rest))
                      (handler d)) (ota d)) in Hstep.
      destruct (execute_command_empty_payload P c mq created d1 Hc)
        as (Eq & Es & Et & Est).
      destruct (execute_command P c mq created d1) as [r d2].
      injection Hstep as <-. cbn in *.
      unfold payloads_empty. rewrite count_result_queue, Eq. auto.
Qed.

(** C10, counterexample: "OTA_UPDATE" arrives on the command topic and is
    queued with an empty payload.  When the publish of the rejection notice
    fails, its execution returns [ESP_ERR_INVALID_RESPONSE], the result of
    [send_mqtt_response], and not ArgumentError (line 314). *)
Lemma empty_ota_update_publish_failure :
  (exists h,
     enqueue_command (parse_command (Some "OTA_UPDATE"%string) 10) None
                     5000000 handler_ready = Some (ESP_OK, h)
     /\ command_queue h
        = QueueLive
            (mk_queue 10 [make_command CMD_OTA_UPDATE None 5000000]))
  /\ data (make_command CMD_OTA_UPDATE None 5000000) = EmptyString
  /\ fst (execute_command esp32c3 (make_command CMD_OTA_UPDATE None 5000000)
            publish_fails true device_boot) = ESP_ERR_INVALID_RESPONSE
  /\ fst (execute_command esp32c3 (make_command CMD_OTA_UPDATE None 5000000)
            publish_fails true device_boot) <> ESP_ERR_INVALID_ARG.
Proof.
  split; [eexists; split; reflexivity|]. repeat split. discriminate.
Qed.

(** C10, amended: every command that the MQTT callback enqueues has an
    empty payload, and serving the queue keeps it so.  Along every sequence
    of MQTT messages and passes of the command task the state, the task and
    the statistics of the update module stay what they were: no update is
    started through the message bus.  An OTA_UPDATE command with an empty
    payload is rejected without a call of [ota_start_update]; the result is
    ArgumentError when the rejection notice is published or there is no MQTT
    client, and the error of the publish otherwise. *)
Theorem bus_never_starts_update (P : platform) (es : list bus_event)
    (d d' : device) :
  payloads_empty (handler d) ->
  bus_run P es d = Some d' ->
  payloads_empty (handler d')
  /\ current_state (ota d') = current_state (ota d)
  /\ task (ota d') = task (ota d)
  /\ ota_stats (ota d') = ota_stats (ota d)
  /\ (forall c mq task_created,
        type c = CMD_OTA_UPDATE ->
        data c = EmptyString ->
        execute_command P c mq task_created d'
        = (if is_ESP_OK (send_mqtt_response mq)
           then ESP_ERR_INVALID_ARG else send_mqtt_response mq, d')
        /\ fst (execute_command P c mq task_created d') <> ESP_OK
        /\ (msg_id mq >= 0 \/ mqtt_client mq = false ->
            fst (execute_command P c mq task_created d')
            = ESP_ERR_INVALID_ARG)).
Proof.
  intros Hpe Hrun.
  assert (G : payloads_empty (handler d')
              /\ current_state (ota d') = current_state (ota d)
              /\ task (ota d') = task (ota d)
              /\ ota_stats (ota d') = ota_stats (ota d)).
  { revert d Hpe Hrun. induction es as [|e es IH]; intros d Hpe Hrun.
    - injection Hrun as <-. auto.
    - cbn in Hrun. destruct (bus_step P e d) as [d1|] eqn:Hstep;
        [|discriminate Hrun].
      destruct (bus_step_keeps_engine P e d d1 Hpe Hstep)
        as (Hpe1 & Es & Et & Est).
      destruct (IH d1 Hpe1 Hrun) as (H1 & H2 & H3 & H4).
      repeat split; congruence. }
  destruct G as (G1 & G2 & G3 & G4).
  split; [exact G1|]. split; [exact G2|]. split; [exact G3|].
  split; [exact G4|].
  intros c mq created Hty Hdata.
  unfold execute_command. rewrite Hty, Hdata. cbn. repeat split.
  - now destruct d'.
  - apply rejection_is_an_error. discriminate.
  - unfold send_mqtt_response. intros [Hid | Hcl].
    + destruct (mqtt_client mq); cbn; [|reflexivity].
      assert (E : (msg_id mq >=? 0) = true) by (apply Z.geb_le; lia).
      now rewrite E.
    + now rewrite Hcl.
Qed.

Lemma bus_never_starts_update_witness :
  exists d',
    bus_run esp32c3 (ota_update_over_bus publish_ok) device_boot = Some d'
    /\ payloads_empty (handler d')
    /\ current_state (ota d') = current_state (ota device_boot)
    /\ task (ota d') = task (ota device_boot)
    /\ ota_stats (ota d') = ota_stats (ota device_boot).
Proof.
  eexists. split; [vm_compute; reflexivity|].
  refine ((fun H => conj (proj1 H) (conj (proj1 (proj2 H))
             (conj (proj1 (proj2 (proj2 H)))
                   (proj1 (proj2 (proj2 (proj2 H)))))))
            (bus_never_starts_update esp32c3 (ota_update_over_bus publish_ok)
               device_boot _ _ _)).
  - cbn. constructor.
  - vm_compute. reflexivity.
Defined.

(* ====================================================================== *)
(** * Further properties of the update engine *)

Ltac u32_arith :=
  unfold u32 in *; Z.div_mod_to_equations; lia.

Lemma run_app (P : platform) (xs ys : list event) (m : ota_module) :
  run P (xs ++ ys) m =
  match run P xs m with
  | Some m' => run P ys m'
  | None => None
  end.
Proof.
  revert m. induction xs as [|x xs IH]; intro m; cbn.
  - reflexivity.
  - destruct (step P x m) as [m'|]; [apply IH | reflexivity].
Qed.

Lemma task_step_keeps_engine_inv (P : platform) (i : task_input)
    (m m' : ota_module) :
  engine_inv m ->
  ota_task_step P i m = Some m' ->
  engine_inv m'.
Proof.
  intros [Hs Hinv] Hstep. unfold ota_task_step in Hstep.
  destruct (task m) as [[cfg|ctx|ctx n|ctx|ctx|ctx| | | ]|] eqn:Ht;
    destruct i; try discriminate Hstep; injection Hstep as <-.
  - unfold engine_inv. cbn. auto.
  - unfold ota_task_setup.
    split_ifs; unfold engine_inv; cbn; rewrite ?Hinv; auto.
  - unfold ota_task_iteration, check_image_header.
    split_ifs; unfold engine_inv; cbn -[Z.quot Z.rem int32]; rewrite ?Hinv;
      auto.
  - unfold ota_task_after_loop.
    destruct (ota_state_eqb (current_state m) OTA_STATE_ERROR) eqn:E; cbn.
    + apply ota_state_eqb_eq in E. unfold engine_inv; cbn. auto.
    + unfold engine_inv; cbn. auto.
  - unfold ota_task_ota_end.
    split_ifs; unfold engine_inv; cbn; auto.
  - unfold ota_task_set_boot.
    split_ifs; unfold engine_inv; cbn -[Z.quot u32]; auto.
  - unfold engine_inv, ota_task_exit; cbn. destruct Hinv; auto.
Qed.

Lemma step_keeps_engine_inv (P : platform) (e : event) (m m' : ota_module) :
  engine_inv m ->
  uninterrupted e = true ->
  step P e m = Some m' ->
  engine_inv m'.
Proof.
  intros Hinv Hu Hstep. pose proof Hinv as [Hs Ht].
  destruct e as [cf created|cf created| | | | |i];
    try discriminate Hu; cbn in Hstep; rewrite ?Hs in Hstep.
  - injection Hstep as <-.
    unfold ota_start_update, ota_start_update_create.
    destruct cf as [cfg|]; [|exact Hinv].
    destruct (ota_state_eqb (current_state m) OTA_STATE_IDLE) eqn:E; cbn;
      [|exact Hinv].
    destruct created; cbn.
    + unfold engine_inv; cbn. auto.
    + exact Hinv.
  - injection Hstep as <-. unfold ota_cancel_update.
    destruct (ota_is_updating m); cbn; exact Hinv.
  - injection Hstep as <-. exact Hinv.
  - injection Hstep as <-. exact Hinv.
  - now apply (task_step_keeps_engine_inv P i m).
Qed.

Lemma run_keeps_engine_inv (P : platform) (es : list event) :
  forall m m',
    engine_inv m ->
    forallb uninterrupted es = true ->
    run P es m = Some m' ->
    engine_inv m'.
Proof.
  induction es as [|e es IH]; intros m m' Hinv Hall Hrun; cbn in Hrun.
  - now injection Hrun as <-.
  - cbn in Hall. apply andb_prop in Hall as [Hu Hall].
    destruct (step P e m) as [m1|] eqn:Hstep; [|discriminate Hrun].
    apply (IH m1 m'); auto. now apply (step_keeps_engine_inv P e m).
Qed.

Lemma engine_inv_boot : engine_inv module_boot.
Proof. split; cbn; auto. Qed.

Ltac accounts_case Hacc :=
  split; [clear - Hacc; u32_arith | auto].

Lemma task_step_keeps_accounts (P : platform) (i : task_input)
    (m m' : ota_module) :
  engine_inv m ->
  accounted m ->
  result_matches_state m ->
  ota_task_step P i m = Some m' ->
  accounted m' /\ result_matches_state m'.
Proof.
  intros [Hs Hinv] Hacc Hres Hstep. unfold ota_task_step in Hstep.
  unfold accounted, pending, result_matches_state in *.
  destruct (task m) as [[cfg|ctx|ctx n|ctx|ctx|ctx| | | ]|] eqn:Ht;
    destruct i; try discriminate Hstep; injection Hstep as <-.
  - cbn. rewrite Hinv in *. cbn. auto.
  - unfold ota_task_setup.
    split_ifs; cbn in *; rewrite ?Hinv in *; cbn in *; try discriminate;
      accounts_case Hacc.
  - unfold ota_task_iteration, check_image_header.
    split_ifs; cbn -[Z.quot Z.rem int32] in *; rewrite ?Hinv in *;
      cbn -[Z.quot Z.rem int32] in *; try discriminate; accounts_case Hacc.
  - unfold ota_task_after_loop.
    split_ifs; cbn in *; try discriminate;
      destruct Hinv as [Hinv|Hinv]; rewrite Hinv in *; cbn in *;
      try discriminate; accounts_case Hacc.
  - unfold ota_task_ota_end.
    split_ifs; cbn in *; rewrite ?Hinv in *; cbn in *; try discriminate;
      accounts_case Hacc.
  - unfold ota_task_set_boot.
    split_ifs; cbn -[Z.quot u32] in *; rewrite ?Hinv in *;
      cbn -[Z.quot u32] in *; try discriminate; accounts_case Hacc.
  - unfold ota_task_exit; cbn. auto.
Qed.

Lemma step_keeps_accounts (P : platform) (e : event) (m m' : ota_module) :
  engine_inv m ->
  accounted m ->
  result_matches_state m ->
  plain e = true ->
  step P e m = Some m' ->
  accounted m' /\ result_matches_state m'.
Proof.
  intros Hinv Hacc Hres Hp Hstep. pose proof Hinv as [Hs Ht].
  destruct e as [cf created|cf created| | | | |i];
    try discriminate Hp; cbn in Hstep; rewrite ?Hs in Hstep.
  - injection Hstep as <-.
    unfold ota_start_update, ota_start_update_create.
    destruct cf as [cfg|]; [|cbn; auto].
    destruct (ota_state_eqb (current_state m) OTA_STATE_IDLE) eqn:E; cbn;
      [|auto].
    apply ota_state_eqb_eq in E.
    unfold accounted, pending, result_matches_state in *.
    destruct (task m) as [pc|] eqn:Htask.
    { destruct pc; cbn in Ht; try destruct Ht as [Ht|Ht]; congruence. }
    destruct created; cbn in *; rewrite ?E, ?Htask in *; accounts_case Hacc.
  - injection Hstep as <-. unfold ota_cancel_update.
    destruct (ota_is_updating m); cbn; auto.
  - injection Hstep as <-. auto.
  - now apply (task_step_keeps_accounts P i m).
Qed.

Lemma run_keeps_accounts (P : platform) (es : list event) :
  forall m m',
    engine_inv m ->
    accounted m ->
    result_matches_state m ->
    forallb plain es = true ->
    run P es m = Some m' ->
    engine_inv m' /\ accounted m' /\ result_matches_state m'.
Proof.
  induction es as [|e es IH]; intros m m' Hinv Hacc Hres Hall Hrun;
    cbn in Hrun.
  - injection Hrun as <-. auto.
  - cbn in Hall. apply andb_prop in Hall as [Hp Hall].
    destruct (step P e m) as [m1|] eqn:Hstep; [|discriminate Hrun].
    assert (Hu : uninterrupted e = true) by (now destruct e).
    destruct (step_keeps_accounts P e m m1 Hinv Hacc Hres Hp Hstep).
    apply (IH m1 m'); auto. now apply (step_keeps_engine_inv P e m).
Qed.

(** X1: at most one download task.  At every point of an execution from
    boot in which no start is interrupted, a task exists only while the state
    is not Idle; so a call of [ota_start_update] that returns [ESP_OK] found
    no task, and the task it leaves is the one it created. *)
Theorem single_flight (P : platform) (es : list event) (m : ota_module)
    (cfg : ota_config_t) (task_created : bool) :
  forallb uninterrupted es = true ->
  run P es module_boot = Some m ->
  (current_state m = OTA_STATE_IDLE -> task m = None)
  /\ (fst (ota_start_update (Some cfg) task_created m) = ESP_OK ->
      task m = None
      /\ task (snd (ota_start_update (Some cfg) task_created m))
         = Some (AtEntry cfg)).
Proof.
  intros Hall Hrun.
  pose proof (run_keeps_engine_inv P es module_boot m engine_inv_boot
                Hall Hrun) as [Hs Ht].
  assert (Hidle : current_state m = OTA_STATE_IDLE -> task m = None).
  { intro E. destruct (task m) as [pc|]; [|reflexivity].
    destruct pc; cbn in Ht; try destruct Ht as [Ht|Ht]; congruence. }
  split; [exact Hidle|].
  unfold ota_start_update, ota_start_update_create.
  destruct (ota_state_eqb (current_state m) OTA_STATE_IDLE) eqn:E; cbn;
    [|discriminate].
  apply ota_state_eqb_eq in E.
  destruct task_created; cbn; [|discriminate]. auto.
Qed.

Lemma single_flight_witness :
  (current_state module_boot = OTA_STATE_IDLE -> task module_boot = None)
  /\ (fst (ota_start_update (Some example_config) true module_boot) = ESP_OK ->
      task module_boot = None
      /\ task (snd (ota_start_update (Some example_config) true module_boot))
         = Some (AtEntry example_config)).
Proof.
  apply (single_flight esp32c3 [EvQuery] module_boot example_config true);
    reflexivity.
Defined.

Lemma dag_move_terminal (a b : ota_state_t) :
  a = OTA_STATE_SUCCESS \/ a = OTA_STATE_ERROR ->
  dag_move a b = true ->
  b = a.
Proof. intros [-> | ->]; destruct b; cbn; intro H; congruence. Qed.

Lemma engine_inv_task_inv (m : ota_module) : engine_inv m -> task_inv m.
Proof.
  intros [Hs Ht]. split; [exact Hs|].
  destruct (task m) as [pc|]; [|exact I]. destruct pc; auto.
Qed.

(** X2: the lock-out after a terminal state.  Once an execution from boot
    has reached Success or Error, no further event (calls of start, cancel,
    reset, queries, steps of the task; no interrupted start) changes the
    state, and every later call of [ota_start_update] is refused: nothing but
    a restart brings the engine back to Idle. *)
Theorem terminal_state_locks_engine (P : platform) (es1 es2 : list event)
    (m m' : ota_module) :
  forallb uninterrupted es1 = true ->
  run P es1 module_boot = Some m ->
  current_state m = OTA_STATE_SUCCESS \/ current_state m = OTA_STATE_ERROR ->
  forallb uninterrupted es2 = true ->
  run P es2 m = Some m' ->
  current_state m' = current_state m
  /\ forall config task_created,
       fst (ota_start_update config task_created m') <> ESP_OK
       /\ snd (ota_start_update config task_created m') = m'.
Proof.
  intros Hall1 Hrun1 Hterm Hall2 Hrun2.
  pose proof (run_keeps_engine_inv P es1 module_boot m engine_inv_boot
                Hall1 Hrun1) as Hinv.
  assert (G : current_state m' = current_state m).
  { clear Hall1 Hrun1. revert m Hinv Hterm Hrun2.
    induction es2 as [|e es IH]; intros m Hinv Hterm Hrun; cbn in Hrun.
    - now injection Hrun as <-.
    - cbn in Hall2. apply andb_prop in Hall2 as [Hu Hall2].
      destruct (step P e m) as [m1|] eqn:Hstep; [|discriminate Hrun].
      destruct (step_follows_dag P e m m1 (engine_inv_task_inv m Hinv) Hu
                  Hstep) as [_ Hmove].
      apply (dag_move_terminal _ _ Hterm) in Hmove.
      rewrite <- Hmove. apply (IH Hall2).
      + now apply (step_keeps_engine_inv P e m).
      + now rewrite Hmove.
      + exact Hrun. }
  split; [exact G|]. intros cf created.
  assert (Hne : current_state m' <> OTA_STATE_IDLE)
    by (rewrite G; destruct Hterm as [-> | ->]; discriminate).
  rewrite (ota_start_update_not_idle_state cf created m' Hne).
  split; [|reflexivity].
  unfold ota_start_update, ota_start_update_create.
  destruct cf; [|discriminate].
  destruct (ota_state_eqb (current_state m') OTA_STATE_IDLE) eqn:E;
    [apply ota_state_eqb_eq in E; contradiction | discriminate].
Qed.

Lemma terminal_state_locks_engine_witness :
  exists m m',
    run esp32c3 failed_update module_boot = Some m
    /\ run esp32c3 retry_after_failure m = Some m'
    /\ current_state m' = current_state m
    /\ forall config task_created,
         fst (ota_start_update config task_created m') <> ESP_OK
         /\ snd (ota_start_update config task_created m') = m'.
Proof.
  do 2 eexists. split; [vm_compute; reflexivity|].
  split; [vm_compute; reflexivity|].
  apply (terminal_state_locks_engine esp32c3 failed_update
           retry_after_failure); try reflexivity.
  right. reflexivity.
Defined.

Lemma accounts_boot : accounted module_boot /\ result_matches_state module_boot.
Proof. split; reflexivity. Qed.

(** X3: every accepted update is counted once.  Along an execution from
    boot with no interrupted start and no reset of the statistics,
    [total_updates] equals, as a [uint32_t], the sum of
    [successful_updates], [failed_updates] and the update still in flight;
    when no task is left it equals successes plus failures. *)
Theorem updates_are_counted_once (P : platform) (es : list event)
    (m : ota_module) :
  forallb plain es = true ->
  run P es module_boot = Some m ->
  u32 (total_updates (ota_stats m))
  = u32 (successful_updates (ota_stats m) + failed_updates (ota_stats m)
         + pending m)
  /\ (task m = None ->
      u32 (total_updates (ota_stats m))
      = u32 (successful_updates (ota_stats m)
             + failed_updates (ota_stats m))).
Proof.
  intros Hall Hrun.
  destruct (run_keeps_accounts P es module_boot m engine_inv_boot
              (proj1 accounts_boot) (proj2 accounts_boot) Hall Hrun)
    as (_ & Hacc & _).
  split; [exact Hacc|]. intro Ht. unfold accounted, pending in Hacc.
  rewrite Ht in Hacc. now rewrite Z.add_0_r in Hacc.
Qed.

Lemma updates_are_counted_once_witness :
  exists m,
    run esp32c3 (failed_update ++ [EvQuery]) module_boot = Some m
    /\ u32 (total_updates (ota_stats m))
       = u32 (successful_updates (ota_stats m) + failed_updates (ota_stats m)
              + pending m)
    /\ (task m = None ->
        u32 (total_updates (ota_stats m))
        = u32 (successful_updates (ota_stats m)
               + failed_updates (ota_stats m))).
Proof.
  eexists. split; [vm_compute; reflexivity|].
  apply (updates_are_counted_once esp32c3 (failed_update ++ [EvQuery]));
    reflexivity.
Defined.

(** X4: the recorded result fits the terminal state.  Along an execution
    from boot with no interrupted start and no reset of the statistics, in
    state Error [last_result] is one of DownloadError, VerifyError,
    InstallError, MemoryError, NetworkError (never Success, never UrlError),
    and in state Success it is Success. *)
Theorem last_result_fits_terminal_state (P : platform) (es : list event)
    (m : ota_module) :
  forallb plain es = true ->
  run P es module_boot = Some m ->
  (current_state m = OTA_STATE_ERROR ->
   is_failure_result (last_result (ota_stats m)) = true
   /\ last_result (ota_stats m) <> OTA_RESULT_SUCCESS
   /\ last_result (ota_stats m) <> OTA_RESULT_URL_ERROR)
  /\ (current_state m = OTA_STATE_SUCCESS ->
      last_result (ota_stats m) = OTA_RESULT_SUCCESS).
Proof.
  intros Hall Hrun.
  destruct (run_keeps_accounts P es module_boot m engine_inv_boot
              (proj1 accounts_boot) (proj2 accounts_boot) Hall Hrun)
    as (_ & _ & Hres).
  unfold result_matches_state in Hres. split; intro E; rewrite E in Hres.
  - split; [exact Hres|].
    destruct (last_result (ota_stats m)); cbn in Hres;
      split; discriminate.
  - exact Hres.
Qed.

Lemma last_result_fits_terminal_state_witness :
  exists m,
    run esp32c3 good_update module_boot = Some m
    /\ (current_state m = OTA_STATE_ERROR ->
        is_failure_result (last_result (ota_stats m)) = true
        /\ last_result (ota_stats m) <> OTA_RESULT_SUCCESS
        /\ last_result (ota_stats m) <> OTA_RESULT_URL_ERROR)
    /\ (current_state m = OTA_STATE_SUCCESS ->
        last_result (ota_stats m) = OTA_RESULT_SUCCESS).
Proof.
  eexists. split; [vm_compute; reflexivity|].
  apply (last_result_fits_terminal_state esp32c3 good_update); reflexivity.
Defined.

(** X5: the cancel flag is read at the top of the download loop and nowhere
    else.  At every other program point a step of [ota_task] does the same
    whether or not a cancel was requested: a cancel accepted while the state
    is Verifying or Installing has no effect on the update. *)
Theorem cancel_is_read_at_loop_top_only (P : platform) (i : task_input)
    (b : bool) (m : ota_module) :
  at_loop m = false ->
  ota_task_step P i (set_cancel_requested b m)
  = option_map (set_cancel_requested b) (ota_task_step P i m).
Proof.
  intro Hl. unfold at_loop in Hl. unfold ota_task_step.
  change (task (set_cancel_requested b m)) with (task m).
  destruct (task m) as [[cfg|ctx|ctx n|ctx|ctx|ctx| | | ]|];
    try discriminate Hl; destruct i; try reflexivity; cbn [option_map];
    f_equal.
  - unfold ota_task_setup. split_ifs; reflexivity.
  - unfold ota_task_after_loop.
    change (current_state (set_cancel_requested b m)) with (current_state m).
    split_ifs; reflexivity.
  - unfold ota_task_ota_end. split_ifs; reflexivity.
  - unfold ota_task_set_boot. split_ifs; reflexivity.
Qed.

Lemma cancel_is_read_at_loop_top_only_witness :
  ota_task_step esp32c3 (InOtaEnd ESP_OK)
    (set_cancel_requested true
       (set_task (Some (AtOtaEnd (mk_ctx example_config 2048 true app_desc_zero)))
          (set_current_state OTA_STATE_VERIFYING module_started)))
  = option_map (set_cancel_requested true)
      (ota_task_step esp32c3 (InOtaEnd ESP_OK)
         (set_task (Some (AtOtaEnd (mk_ctx example_config 2048 true app_desc_zero)))
            (set_current_state OTA_STATE_VERIFYING module_started))).
Proof.
  apply (cancel_is_read_at_loop_top_only esp32c3 (InOtaEnd ESP_OK) true).
  reflexivity.
Defined.

(** ** A whole download *)

Lemma check_image_header_length (P : platform) (c : chunk)
    (ctx ctx' : ota_context_t) :
  check_image_header P c ctx = Some ctx' ->
  binary_file_length ctx' = binary_file_length ctx
  /\ config ctx' = config ctx.
Proof.
  unfold check_image_header. split_ifs; intro H; try discriminate H;
    injection H as <-; auto.
Qed.

(** A pass that reads a chunk, finds nothing wrong with its header and
    writes it. *)
Lemma written_chunk_pass (P : platform) (c : chunk) (ctx ctx' : ota_context_t)
    (n : Z) (m : ota_module) :
  task m = Some (AtLoop ctx n) ->
  cancel_requested m = false ->
  current_state m = OTA_STATE_DOWNLOADING ->
  binary_file_length ctx <> 0 ->
  written_chunk c ->
  check_image_header P c ctx = Some ctx' ->
  exists m',
    ota_task_step P (InChunk c) m = Some m'
    /\ task m' = Some (AtLoop ctx' (int32 (n + data_read c)))
    /\ cancel_requested m' = false
    /\ current_state m' = OTA_STATE_DOWNLOADING
    /\ ota_stats m' = ota_stats m
    /\ ota_written m' = ota_written m ++ [written_bytes c]
    /\ current_progress m'
       = Z.quot (int32 (int32 (n + data_read c) * 100))
                (binary_file_length ctx).
Proof.
  intros Ht Hc Hs Hlen (Hpos & Hw) Hchk.
  destruct (check_image_header_length P c ctx ctx' Hchk) as [Hl _].
  unfold ota_task_step. rewrite Ht. unfold ota_task_iteration.
  rewrite Hc.
  assert (E1 : (data_read c <? 0) = false) by (apply Z.ltb_ge; lia).
  assert (E2 : (data_read c >? 0) = true) by (apply Z.gtb_lt; lia).
  rewrite E1, E2, Hchk, Hw, Hl. cbn [is_ESP_OK negb].
  apply Z.eqb_neq in Hlen. rewrite Hlen.
  match goal with
  | |- context [if ?b then _ else _] => destruct b
  end; eexists; (split; [reflexivity|]); cbn -[Z.quot int32];
    repeat split; auto.
Qed.




Lemma int32_small (z : Z) : 0 <= z < 2 ^ 31 -> int32 z = z.
Proof.
  intro H. unfold int32. rewrite Z.mod_small; lia.
Qed.

(** X7: the progress is a percentage as long as the arithmetic fits.  When
    the bytes received so far, this chunk included, do not exceed the
    announced content length and that length is at most 21474836 (so that
    the product by 100 fits an [int]), a pass that writes its chunk sets
    [current_progress] to the bytes received times 100 divided by the length,
    rounded down: a number from 0 to 100; the byte counter is exact. *)
Theorem progress_is_a_percentage (P : platform) (c : chunk)
    (ctx ctx' : ota_context_t) (n : Z) (m : ota_module) :
  task m = Some (AtLoop ctx n) ->
  cancel_requested m = false ->
  current_state m = OTA_STATE_DOWNLOADING ->
  written_chunk c ->
  check_image_header P c ctx = Some ctx' ->
  0 <= n ->
  n + data_read c <= binary_file_length ctx ->
  binary_file_length ctx <= 21474836 ->
  exists m',
    ota_task_step P (InChunk c) m = Some m'
    /\ task m' = Some (AtLoop ctx' (n + data_read c))
    /\ current_progress m'
       = (n + data_read c) * 100 / binary_file_length ctx
    /\ 0 <= current_progress m' <= 100.
Proof.
  intros Ht Hc Hs Hgood Hchk Hn Hle Hmax.
  pose proof Hgood as [Hpos _].
  assert (Hlen : binary_file_length ctx <> 0) by lia.
  destruct (written_chunk_pass P c ctx ctx' n m Ht Hc Hs Hlen Hgood Hchk)
    as (m' & Hstep & Ht' & _ & _ & _ & _ & Hp).
  rewrite (int32_small (n + data_read c)) in Ht', Hp by lia.
  rewrite int32_small in Hp by lia.
  rewrite Z.quot_div_nonneg in Hp by lia.
  exists m'. repeat split; try assumption; rewrite Hp.
  - apply Z.div_pos; lia.
  - apply Z.div_le_upper_bound; lia.
Qed.

Lemma progress_is_a_percentage_witness :
  exists m',
    ota_task_step esp32c3 (InChunk (image_chunk "1.0.1" ESP_OK))
                  module_downloading = Some m'
    /\ task m'
       = Some (AtLoop
                 (mk_ctx example_config 2048 true
                    (app_desc_of_buffer esp32c3
                       (ota_write_data (image_chunk "1.0.1" ESP_OK))))
                 (0 + data_read (image_chunk "1.0.1" ESP_OK)))
    /\ current_progress m'
       = (0 + data_read (image_chunk "1.0.1" ESP_OK)) * 100
         / binary_file_length (mk_ctx example_config 2048 false app_desc_zero)
    /\ 0 <= current_progress m' <= 100.
Proof.
  apply (progress_is_a_percentage esp32c3 (image_chunk "1.0.1" ESP_OK)
           (mk_ctx example_config 2048 false app_desc_zero)).
  - reflexivity.
  - reflexivity.
  - reflexivity.
  - split; [cbn; lia | reflexivity].
  - vm_compute. reflexivity.
  - lia.
  - cbn. lia.
  - cbn. lia.
Defined.

(* ====================================================================== *)
(** * Further properties of the command dispatcher *)

Lemma ascii_code_differs (c c' : ascii) :
  Ascii.eqb c c' = false ->
  Z.of_nat (nat_of_ascii c) - Z.of_nat (nat_of_ascii c') <> 0.
Proof.
  intros Hne Heq. apply Ascii.eqb_neq in Hne. apply Hne.
  rewrite <- (ascii_nat_embedding c), <- (ascii_nat_embedding c').
  f_equal. lia.
Qed.

(** On a text without NUL, [strncmp] over the length of the text is 0 only
    if the literal begins with the text. *)
Lemma strncmp_zero_prefix (s : string) :
  forall lit : string,
    nul_free s = true ->
    strncmp s lit (String.length s) = 0 ->
    String.prefix s lit = true.
Proof.
  induction s as [|c s IH]; intros lit Hnul H0.
  - now destruct lit.
  - cbn in Hnul. apply andb_prop in Hnul as [Hc Hnul].
    apply negb_true_iff in Hc.
    cbn [String.length strncmp head_char tail_string] in H0.
    destruct (Ascii.eqb c (head_char lit)) eqn:E.
    + rewrite Hc in H0. apply Ascii.eqb_eq in E.
      destruct lit as [|c' lit]; cbn in E.
      * subst c. discriminate Hc.
      * subst c'. cbn. destruct (ascii_dec c c); [|contradiction].
        now apply IH.
    + now apply ascii_code_differs in E.
Qed.

Lemma strncmp_eqb_prefix (s lit : string) :
  nul_free s = true ->
  (strncmp s lit (String.length s) =? 0) = String.prefix s lit.
Proof.
  intro Hnul. destruct (String.prefix s lit) eqn:Hp.
  - apply Z.eqb_eq. now apply strncmp_prefix.
  - apply Z.eqb_neq. intro H0.
    rewrite (strncmp_zero_prefix s lit Hnul H0) in Hp. discriminate Hp.
Qed.

Lemma first_strncmp_kind {A : Type} (unknown : A)
    (table : list (string * A)) (s : string) :
  nul_free s = true ->
  first_strncmp unknown table s (String.length s)
  = kind_of_prefix unknown table s.
Proof.
  intro Hnul. unfold kind_of_prefix.
  induction table as [|[lit k] table IH]; cbn.
  - reflexivity.
  - rewrite (strncmp_eqb_prefix s lit Hnul).
    destruct (String.prefix s lit); [reflexivity | exact IH].
Qed.

Lemma parse_command_chain (s : string) (cmd_len : Z) :
  parse_command (Some s) cmd_len
  = if cmd_len <=? 0 then CMD_UNKNOWN
    else first_strncmp CMD_UNKNOWN command_literals s (Z.to_nat cmd_len).
Proof.
  unfold parse_command. destruct (cmd_len <=? 0); [reflexivity|].
  unfold command_literals, first_strncmp.
  destruct (strncmp s WATER_ALIAS (Z.to_nat cmd_len) =? 0); reflexivity.
Qed.

(** X8: what [parse_command] accepts.  For a received text without NUL,
    given with its own length, the result is the kind of the first literal,
    in the order of the tests, that begins with the text; it is
    [CMD_UNKNOWN] exactly when no literal begins with the text.  So a text
    that is longer than a literal it begins with is unknown, and a text that
    only begins a literal is taken for it. *)
Theorem parse_command_is_prefix_lookup (s : string) :
  nul_free s = true ->
  s <> EmptyString ->
  parse_command (Some s) (Z.of_nat (String.length s))
  = kind_of_prefix CMD_UNKNOWN command_literals s
  /\ (parse_command (Some s) (Z.of_nat (String.length s)) = CMD_UNKNOWN
      <-> forall lit k, In (lit, k) command_literals ->
                        String.prefix s lit = false).
Proof.
  intros Hnul Hne.
  assert (E : parse_command (Some s) (Z.of_nat (String.length s))
              = kind_of_prefix CMD_UNKNOWN command_literals s).
  { rewrite parse_command_chain.
    destruct s as [|c s]; [contradiction|].
    assert (L : (Z.of_nat (String.length (String c s)) <=? 0) = false)
      by (apply Z.leb_gt; cbn [String.length]; lia).
    rewrite L, Nat2Z.id. now apply first_strncmp_kind. }
  split; [exact E|]. rewrite E. unfold kind_of_prefix. split.
  - intros Hk lit k Hin.
    destruct (find (fun e => String.prefix s (fst e)) command_literals)
      as [[l0 k0]|] eqn:Hf.
    + apply find_some in Hf as [Hin0 _]. cbn in Hk. subst k0.
      cbn in Hin0. repeat destruct Hin0 as [Hin0|Hin0];
        try discriminate Hin0; contradiction.
    + apply (find_none _ _ Hf (lit, k) Hin).
  - intro Hall.
    destruct (find (fun e => String.prefix s (fst e)) command_literals)
      as [[l0 k0]|] eqn:Hf; [|reflexivity].
    apply find_some in Hf as [Hin0 Hp]. cbn in Hp.
    rewrite (Hall l0 k0 Hin0) in Hp. discriminate Hp.
Qed.

Lemma parse_command_is_prefix_lookup_witness :
  parse_command (Some "OTA_"%string)
                (Z.of_nat (String.length "OTA_"%string))
  = kind_of_prefix CMD_UNKNOWN command_literals "OTA_"%string
  /\ (parse_command (Some "OTA_"%string)
                    (Z.of_nat (String.length "OTA_"%string)) = CMD_UNKNOWN
      <-> forall lit k, In (lit, k) command_literals ->
                        String.prefix "OTA_"%string lit = false).
Proof.
  apply (parse_command_is_prefix_lookup "OTA_"%string).
  - reflexivity.
  - discriminate.
Defined.

(** ** The payload on its way through the queue *)

Lemma string_firstn_length (n : nat) (s : string) :
  String.length (string_firstn n s) = Nat.min n (String.length s).
Proof.
  revert s. induction n as [|n IH]; intros [|c s]; cbn; auto.
Qed.

Lemma string_firstn_prefix (n : nat) (s : string) :
  String.prefix (string_firstn n s) s = true.
Proof.
  revert s. induction n as [|n IH]; intros [|c s]; cbn; auto.
  destruct (ascii_dec c c); [apply IH | contradiction].
Qed.

Lemma string_firstn_all (n : nat) (s : string) :
  (String.length s <= n)%nat -> string_firstn n s = s.
Proof.
  revert s. induction n as [|n IH]; intros [|c s] H; cbn in *;
    try reflexivity; try lia.
  f_equal. apply IH. lia.
Qed.

Lemma string_firstn_firstn (n k : nat) (s : string) :
  string_firstn n (string_firstn k s) = string_firstn (Nat.min n k) s.
Proof.
  revert k s. induction n as [|n IH]; intros [|k] [|c s]; cbn; auto.
  f_equal. apply IH.
Qed.

(** X9: the payload of a queued command is the first 63 bytes of the text
    given to [enqueue_command].  When the call returns [ESP_OK] the queue has
    grown by one command of the given kind whose payload begins the given
    text, is at most 63 characters long and is the whole text when that has
    no more than 63; its time stamp is a [uint32_t]. *)
Theorem enqueue_command_truncates_payload (cmd_type : command_type_t)
    (payload : string) (now_us : Z) (h h' : command_handler) (q : queue) :
  command_queue h = QueueLive q ->
  enqueue_command cmd_type (Some payload) now_us h = Some (ESP_OK, h') ->
  exists c,
    command_queue h' = QueueLive (mk_queue (uxLength q) (items q ++ [c]))
    /\ type c = cmd_type
    /\ (String.length (data c) <= 63)%nat
    /\ String.length (data c) = Nat.min 63 (String.length payload)
    /\ String.prefix (data c) payload = true
    /\ ((String.length payload <= 63)%nat -> data c = payload)
    /\ 0 <= timestamp c < 2 ^ 32.
Proof.
  intros Hq Henq. unfold enqueue_command, xQueueSend in Henq.
  rewrite Hq in Henq.
  destruct (List.length (items q) <? uxLength q)%nat;
    [|discriminate Henq].
  injection Henq as <-.
  exists (make_command cmd_type (Some payload) now_us).
  cbn [command_queue set_command_queue make_command type data timestamp].
  unfold strncpy. rewrite string_firstn_length.
  split; [reflexivity|]. split; [reflexivity|]. split; [lia|].
  split; [reflexivity|]. split; [apply string_firstn_prefix|].
  split; [apply string_firstn_all|].
  unfold u32. apply Z.mod_pos_bound. lia.
Qed.

Lemma enqueue_command_truncates_payload_witness :
  exists c,
    command_queue
      (set_command_queue
         (QueueLive
            (mk_queue 10
               ([] ++ [make_command CMD_OTA_UPDATE
                         (Some "http://192.168.1.10/firmware.bin"%string)
                         7000000])))
         handler_ready)
    = QueueLive
        (mk_queue (uxLength (mk_queue COMMAND_QUEUE_SIZE []))
                  (items (mk_queue COMMAND_QUEUE_SIZE []) ++ [c]))
    /\ type c = CMD_OTA_UPDATE
    /\ (String.length (data c) <= 63)%nat
    /\ String.length (data c)
       = Nat.min 63 (String.length "http://192.168.1.10/firmware.bin"%string)
    /\ String.prefix (data c) "http://192.168.1.10/firmware.bin"%string = true
    /\ ((String.length "http://192.168.1.10/firmware.bin"%string <= 63)%nat ->
        data c = "http://192.168.1.10/firmware.bin"%string)
    /\ 0 <= timestamp c < 2 ^ 32.
Proof.
  apply (enqueue_command_truncates_payload CMD_OTA_UPDATE
           "http://192.168.1.10/firmware.bin"%string 7000000 handler_ready
           _ (mk_queue COMMAND_QUEUE_SIZE [])).
  - reflexivity.
  - reflexivity.
Defined.

(** ** The queue and the counters of the command task *)

Lemma execute_command_keeps_handler (P : platform) (c : mqtt_command_t)
    (mq : mqtt_env) (task_created : bool) (d : device) :
  command_queue (handler (snd (execute_command P c mq task_created d)))
  = command_queue (handler d)
  /\ processed_count (handler (snd (execute_command P c mq task_created d)))
     = processed_count (handler d)
  /\ error_count (handler (snd (execute_command P c mq task_created d)))
     = error_count (handler d).
Proof.
  unfold execute_command. destruct (type c); try (cbn; auto; fail).
  - destruct (execute_ota_update_command P (Some (data c)) mq task_created
                (ota d)); cbn; auto.
  - destruct (execute_ota_cancel_command mq (ota d)); cbn; auto.
Qed.

Lemma bus_step_keeps_queue_bounds (P : platform) (e : bus_event)
    (d d' : device) :
  queue_within_bounds (handler d) ->
  bus_step P e d = Some d' ->
  queue_within_bounds (handler d').
Proof.
  intros (q & Hq & Hlen & Hle) Hstep. unfold queue_within_bounds.
  destruct e as [ed len now | mq created]; cbn in Hstep.
  - unfold mqtt_event_data in Hstep.
    destruct (negb (is_CMD_UNKNOWN (parse_command ed len)));
      [|injection Hstep as <-; eauto].
    unfold enqueue_command, xQueueSend in Hstep. rewrite Hq, Hlen in Hstep.
    destruct (Nat.ltb_spec (List.length (items q)) COMMAND_QUEUE_SIZE);
      injection Hstep as <-; cbn.
    + eexists. split; [reflexivity|]. cbn. rewrite length_app. cbn.
      split; [auto | lia].
    + eauto.
  - unfold command_handler_task_pass in Hstep. rewrite Hq in Hstep.
    unfold xQueueReceive in Hstep.
    destruct (items q) as [|c rest] eqn:Hi.
    + injection Hstep as <-. exists q. rewrite Hi. auto.
    + set (d1 := mk_device
                   (set_command_queue (QueueLive (mk_queue (uxLength q) rest))
                      (handler d)) (ota d)) in Hstep.
      destruct (execute_command_keeps_handler P c mq created d1)
        as (Eq & _ & _).
      destruct (execute_command P c mq created d1) as [r d2].
      injection Hstep as <-. cbn in *.
      rewrite count_result_queue, Eq.
      eexists. split; [reflexivity|]. cbn. split; [exact Hlen | lia].
Qed.

(** X10: the queue never holds more than ten commands.  From a handler that
    [command_handler_init] has set up, whatever MQTT messages arrive and
    whenever the command task serves the queue, the queue stays live, keeps
    its length of [COMMAND_QUEUE_SIZE] and holds at most that many
    commands. *)
Theorem queue_never_overflows (P : platform) (es : list bus_event)
    (d d' : device) :
  queue_within_bounds (handler d) ->
  bus_run P es d = Some d' ->
  exists q,
    command_queue (handler d') = QueueLive q
    /\ uxLength q = COMMAND_QUEUE_SIZE
    /\ (List.length (items q) <= 10)%nat.
Proof.
  revert d. induction es as [|e es IH]; intros d Hb Hrun; cbn in Hrun.
  - injection Hrun as <-. exact Hb.
  - destruct (bus_step P e d) as [d1|] eqn:Hstep; [|discriminate Hrun].
    apply (IH d1); [|exact Hrun].
    now apply (bus_step_keeps_queue_bounds P e d).
Qed.

Lemma queue_never_overflows_witness :
  exists q,
    command_queue
      (handler (mk_device
                  (set_command_queue
                     (QueueLive
                        (mk_queue 10 [make_command CMD_WATER None 5000000]))
                     handler_ready)
                  (ota device_boot)))
    = QueueLive q
    /\ uxLength q = COMMAND_QUEUE_SIZE
    /\ (List.length (items q) <= 10)%nat.
Proof.
  apply (queue_never_overflows esp32c3
           [MqttData (Some "WATER"%string) 5 5000000] device_boot).
  - exists (mk_queue COMMAND_QUEUE_SIZE []). repeat split. cbn. lia.
  - reflexivity.
Defined.

Lemma nonempty_length (u : string) :
  u <> EmptyString -> (String.length u =? 0)%nat = false.
Proof. destruct u; [contradiction | reflexivity]. Qed.

Lemma count_result_counts (r : esp_err_t) (h : command_handler) :
  (r = ESP_OK -> counted_as_processed h (count_result r h))
  /\ (r <> ESP_OK -> counted_as_error h (count_result r h)).
Proof.
  unfold count_result, counted_as_processed, counted_as_error. split.
  - intros ->. cbn. auto.
  - intro Hne. destruct r; cbn; try contradiction; auto.
Qed.

(** The result of the [switch] of lines 445-475, kind by kind. *)
Lemma execute_command_result (P : platform) (c : mqtt_command_t)
    (mq : mqtt_env) (task_created : bool) (d : device) :
  match type c with
  | CMD_WATER | CMD_GET_STATUS | CMD_GET_READING | CMD_OTA_STATUS =>
      fst (execute_command P c mq task_created d) = ESP_OK
  | CMD_UNKNOWN => fst (execute_command P c mq task_created d) <> ESP_OK
  | CMD_OTA_UPDATE =>
      (data c <> EmptyString
       /\ current_state (ota d) = OTA_STATE_IDLE
       /\ task_created = true ->
       fst (execute_command P c mq task_created d) = ESP_OK)
      /\ (data c = EmptyString
          \/ current_state (ota d) <> OTA_STATE_IDLE
          \/ task_created = false ->
          fst (execute_command P c mq task_created d) <> ESP_OK)
  | CMD_OTA_CANCEL =>
      (in_progress (current_state (ota d)) = true ->
       fst (execute_command P c mq task_created d) = ESP_OK)
      /\ (in_progress (current_state (ota d)) = false ->
          fst (execute_command P c mq task_created d) <> ESP_OK)
  end.
Proof.
  unfold execute_command. destruct (type c); try reflexivity.
  - (* CMD_OTA_UPDATE *)
    unfold execute_ota_update_command.
    rewrite ota_is_updating_in_progress.
    unfold ota_start_update, ota_start_update_create. split.
    + intros (Hdata & Hstate & ->).
      rewrite (nonempty_length _ Hdata), Hstate. reflexivity.
    + intros Hno. destruct (data c) as [|ch rest] eqn:Edata.
      * cbn. apply rejection_is_an_error. discriminate.
      * cbn [String.length Nat.eqb].
        destruct (current_state (ota d)) eqn:Estate; cbn;
          try (apply rejection_is_an_error; discriminate);
          try discriminate.
        destruct Hno as [Hno | [Hno | ->]];
          [discriminate Hno | contradiction | cbn; discriminate].
  - (* CMD_OTA_CANCEL *)
    unfold execute_ota_cancel_command, ota_cancel_update.
    rewrite ota_is_updating_in_progress. split; intros ->; cbn.
    + reflexivity.
    + apply rejection_is_an_error. discriminate.
  - (* CMD_UNKNOWN *)
    cbn. discriminate.
Qed.

(** X11: the command task serves the oldest command and counts it once.
    With an empty queue a pass changes nothing.  Otherwise the queue loses
    its oldest command, and the result of executing that command is counted
    in [processed_count] when it is [ESP_OK] and in [error_count] when it is
    not, never in both.  Which of the two it is, kind by kind: the watering,
    status, reading and OTA status commands count as processed; an unknown
    kind counts as an error; OTA_UPDATE counts as processed exactly when its
    payload is not empty, the update engine is in Idle and the download task
    could be created; OTA_CANCEL counts as processed exactly when an update
    is in progress. *)
Theorem command_task_counts_once (P : platform) (mq : mqtt_env)
    (task_created : bool) (d : device) (q : queue) :
  command_queue (handler d) = QueueLive q ->
  (items q = [] ->
   command_handler_task_pass P mq task_created d = Some d)
  /\ (forall c rest,
        items q = c :: rest ->
        exists d',
          command_handler_task_pass P mq task_created d = Some d'
          /\ command_queue (handler d')
             = QueueLive (mk_queue (uxLength q) rest)
          /\ (fst (execute_command P c mq task_created
                     (mk_device
                        (set_command_queue
                           (QueueLive (mk_queue (uxLength q) rest))
                           (handler d))
                        (ota d))) = ESP_OK ->
              counted_as_processed (handler d) (handler d'))
          /\ (fst (execute_command P c mq task_created
                     (mk_device
                        (set_command_queue
                           (QueueLive (mk_queue (uxLength q) rest))
                           (handler d))
                        (ota d))) <> ESP_OK ->
              counted_as_error (handler d) (handler d'))
          /\ match type c with
             | CMD_WATER | CMD_GET_STATUS | CMD_GET_READING
             | CMD_OTA_STATUS =>
                 counted_as_processed (handler d) (handler d')
             | CMD_UNKNOWN => counted_as_error (handler d) (handler d')
             | CMD_OTA_UPDATE =>
                 (data c <> EmptyString
                  /\ current_state (ota d) = OTA_STATE_IDLE
                  /\ task_created = true ->
                  counted_as_processed (handler d) (handler d'))
                 /\ (data c = EmptyString
                     \/ current_state (ota d) <> OTA_STATE_IDLE
                     \/ task_created = false ->
                     counted_as_error (handler d) (handler d'))
             | CMD_OTA_CANCEL =>
                 (in_progress (current_state (ota d)) = true ->
                  counted_as_processed (handler d) (handler d'))
                 /\ (in_progress (current_state (ota d)) = false ->
                     counted_as_error (handler d) (handler d'))
             end).
Proof.
  intro Hq. unfold command_handler_task_pass, xQueueReceive. rewrite Hq.
  split.
  - intro Hi. now rewrite Hi.
  - intros c rest Hi. rewrite Hi.
    set (d1 := mk_device
                 (set_command_queue (QueueLive (mk_queue (uxLength q) rest))
                    (handler d)) (ota d)).
    destruct (execute_command_keeps_handler P c mq task_created d1)
      as (Eq & Ep & Ee).
    pose proof (execute_command_result P c mq task_created d1) as Hkind.
    destruct (execute_command P c mq task_created d1) as [r d2].
    cbn [fst snd] in *.
    destruct (count_result_counts r (handler d2)) as (Hok & Herr).
    assert (Ep' : processed_count (handler d2) = processed_count (handler d))
      by exact Ep.
    assert (Ee' : error_count (handler d2) = error_count (handler d))
      by exact Ee.
    assert (Hp : r = ESP_OK ->
                 counted_as_processed (handler d)
                   (count_result r (handler d2))).
    { intro Hr. specialize (Hok Hr).
      unfold counted_as_processed in *. now rewrite <- Ep', <- Ee'. }
    assert (He : r <> ESP_OK ->
                 counted_as_error (handler d)
                   (count_result r (handler d2))).
    { intro Hr. specialize (Herr Hr).
      unfold counted_as_error in *. now rewrite <- Ep', <- Ee'. }
    exists (mk_device (count_result r (handler d2)) (ota d2)).
    split; [reflexivity|]. cbn [handler].
    rewrite count_result_queue, Eq.
    split; [reflexivity|]. split; [exact Hp|]. split; [exact He|].
    destruct (type c); cbn [ota d1] in Hkind; try tauto; auto.
Qed.

Lemma command_task_counts_once_witness :
  (exists d',
     command_handler_task_pass esp32c3 publish_ok true
       (mk_device handler_full (ota device_boot)) = Some d'
     /\ processed_count (handler d') = 1
     /\ error_count (handler d') = 0)
  /\ (exists d',
        command_handler_task_pass esp32c3 publish_ok true
          (mk_device handler_ota_cancel (ota device_boot)) = Some d'
        /\ processed_count (handler d') = 0
        /\ error_count (handler d') = 1).
Proof.
  split.
  - destruct (proj2 (command_task_counts_once esp32c3 publish_ok true
                       (mk_device handler_full (ota device_boot))
                       (mk_queue COMMAND_QUEUE_SIZE
                          (repeat (make_command CMD_GET_STATUS None 0) 10))
                       eq_refl)
                (make_command CMD_GET_STATUS None 0)
                (repeat (make_command CMD_GET_STATUS None 0) 9) eq_refl)
      as (d' & Hpass & _ & _ & _ & Hp & He).
    exists d'. split; [exact Hpass|]. rewrite Hp, He. split; reflexivity.
  - destruct (proj2 (command_task_counts_once esp32c3 publish_ok true
                       (mk_device handler_ota_cancel (ota device_boot))
                       (mk_queue COMMAND_QUEUE_SIZE
                          [make_command CMD_OTA_CANCEL None 0])
                       eq_refl)
                (make_command CMD_OTA_CANCEL None 0) [] eq_refl)
      as (d' & Hpass & _ & _ & _ & _ & Hkind).
    destruct (Hkind eq_refl) as (He & Hp).
    exists d'. split; [exact Hpass|]. rewrite Hp, He. split; reflexivity.
Defined.

(** ** Starting an update from the dispatcher *)

(** X12: what the OTA_UPDATE command does with a locator that is not
    empty, state by state.  While an update is in progress it is refused
    with StateError (or the error of the failed notice) and changes nothing;
    in Success and in Error it passes the test of [ota_is_updating] and is
    then refused by [ota_start_update] with StateError, again changing
    nothing; in Idle it starts an update whose configuration holds the first
    255 bytes of the locator and always asks for the restart after success,
    unless the task cannot be created, which gives [ESP_ERR_NO_MEM] and
    leaves state, task and statistics as they were. *)
Theorem execute_ota_update_by_state (P : platform) (u : string)
    (mq : mqtt_env) (task_created : bool) (m : ota_module) :
  u <> EmptyString ->
  (in_progress (current_state m) = true ->
   execute_ota_update_command P (Some u) mq task_created m
   = (if is_ESP_OK (send_mqtt_response mq)
      then ESP_ERR_INVALID_STATE else send_mqtt_response mq, m))
  /\ (current_state m = OTA_STATE_SUCCESS
      \/ current_state m = OTA_STATE_ERROR ->
      execute_ota_update_command P (Some u) mq task_created m
      = (ESP_ERR_INVALID_STATE, m))
  /\ (current_state m = OTA_STATE_IDLE ->
      task_created = false ->
      fst (execute_ota_update_command P (Some u) mq task_created m)
      = ESP_ERR_NO_MEM
      /\ current_state (snd (execute_ota_update_command P (Some u) mq
                               task_created m)) = OTA_STATE_IDLE
      /\ task (snd (execute_ota_update_command P (Some u) mq task_created m))
         = task m
      /\ ota_stats (snd (execute_ota_update_command P (Some u) mq
                           task_created m)) = ota_stats m)
  /\ (current_state m = OTA_STATE_IDLE ->
      task_created = true ->
      exists cfg,
        fst (execute_ota_update_command P (Some u) mq task_created m)
        = ESP_OK
        /\ task (snd (execute_ota_update_command P (Some u) mq task_created
                        m)) = Some (AtEntry cfg)
        /\ firmware_url cfg = string_firstn 255 u
        /\ auto_reboot cfg = true
        /\ current_state (snd (execute_ota_update_command P (Some u) mq
                                 task_created m)) = OTA_STATE_DOWNLOADING
        /\ total_updates (ota_stats (snd (execute_ota_update_command P
                                            (Some u) mq task_created m)))
           = u32 (total_updates (ota_stats m) + 1)
        /\ cancel_requested (snd (execute_ota_update_command P (Some u) mq
                                    task_created m)) = false).
Proof.
  intro Hne. unfold execute_ota_update_command.
  rewrite (nonempty_length u Hne), ota_is_updating_in_progress.
  split; [|split; [|split]].
  - intro H. now rewrite H.
  - intro H.
    assert (E : in_progress (current_state m) = false)
      by (destruct H as [-> | ->]; reflexivity).
    rewrite E. unfold ota_start_update, ota_start_update_create.
    destruct H as [-> | ->]; reflexivity.
  - intros H ->. rewrite H. cbn [in_progress].
    unfold ota_start_update, ota_start_update_create. rewrite H. cbn. auto.
  - intros H ->. rewrite H. cbn [in_progress].
    unfold ota_start_update, ota_start_update_create. rewrite H.
    eexists. cbn -[u32 strncpy_bytes]. repeat split.
Qed.

Lemma execute_ota_update_by_state_witness :
  execute_ota_update_command esp32c3 (Some "http://h/f.bin"%string)
    publish_ok true
    (set_current_state OTA_STATE_ERROR module_boot)
  = (ESP_ERR_INVALID_STATE, set_current_state OTA_STATE_ERROR module_boot).
Proof.
  apply (proj1 (proj2
           (execute_ota_update_by_state esp32c3 "http://h/f.bin"%string
              publish_ok true
              (set_current_state OTA_STATE_ERROR module_boot)
              ltac:(discriminate)))).
  right. reflexivity.
Defined.

(** X13: a locator on its way from [enqueue_command] to [ota_task].  A
    non-empty locator queued as the only command and served in state Idle,
    the download task being created, starts an update whose [firmware_url]
    is the first 63 bytes of the
    locator: the 64-byte [data] of the queued command cuts it before the
    256-byte field of the configuration can.  The command is counted as
    processed and the queue is empty again. *)
Theorem locator_is_cut_by_the_queue (P : platform) (url : string)
    (now_us : Z) (mq : mqtt_env) (h : command_handler) (q : queue)
    (m : ota_module) :
  command_queue h = QueueLive q ->
  items q = [] ->
  (0 < uxLength q)%nat ->
  url <> EmptyString ->
  current_state m = OTA_STATE_IDLE ->
  exists h1 d' cfg,
    enqueue_command CMD_OTA_UPDATE (Some url) now_us h = Some (ESP_OK, h1)
    /\ command_handler_task_pass P mq true (mk_device h1 m) = Some d'
    /\ task (ota d') = Some (AtEntry cfg)
    /\ firmware_url cfg = string_firstn 63 url
    /\ (String.length (firmware_url cfg) <= 63)%nat
    /\ current_state (ota d') = OTA_STATE_DOWNLOADING
    /\ processed_count (handler d') = u32 (processed_count h + 1)
    /\ error_count (handler d') = error_count h
    /\ command_queue (handler d') = QueueLive (mk_queue (uxLength q) []).
Proof.
  intros Hq Hi Hcap Hne Hidle.
  exists (set_command_queue
            (QueueLive
               (mk_queue (uxLength q)
                  [make_command CMD_OTA_UPDATE (Some url) now_us])) h).
  assert (Henq : enqueue_command CMD_OTA_UPDATE (Some url) now_us h
                 = Some (ESP_OK,
                         set_command_queue
                           (QueueLive
                              (mk_queue (uxLength q)
                                 [make_command CMD_OTA_UPDATE (Some url)
                                    now_us])) h)).
  { unfold enqueue_command, xQueueSend. rewrite Hq, Hi. cbn [List.length].
    destruct (Nat.ltb_spec 0 (uxLength q)) as [_|Hge]; [reflexivity|lia]. }
  unfold command_handler_task_pass, xQueueReceive.
  cbn [handler command_queue set_command_queue items uxLength].
  unfold execute_command.
  cbn [type data make_command ota handler].
  unfold execute_ota_update_command.
  assert (Hcut : strncpy url 63 <> EmptyString)
    by (destruct url; [contradiction | discriminate]).
  rewrite (nonempty_length _ Hcut), ota_is_updating_in_progress, Hidle.
  cbn [in_progress].
  unfold ota_start_update, ota_start_update_create. rewrite Hidle.
  cbn [ota_state_eqb negb].
  do 2 eexists. split; [exact Henq|]. split; [reflexivity|].
  split; [reflexivity|].
  cbn -[u32 strncpy_bytes string_firstn].
  unfold strncpy. rewrite string_firstn_firstn. cbn [Nat.min].
  rewrite string_firstn_length.
  repeat split. lia.
Qed.

Lemma locator_is_cut_by_the_queue_witness :
  exists h1 d' cfg,
    enqueue_command CMD_OTA_UPDATE (Some "http://192.168.1.10/firmware.bin"%string)
                    7000000 handler_ready = Some (ESP_OK, h1)
    /\ command_handler_task_pass esp32c3 publish_ok true
         (mk_device h1 module_boot) = Some d'
    /\ task (ota d') = Some (AtEntry cfg)
    /\ firmware_url cfg
       = string_firstn 63 "http://192.168.1.10/firmware.bin"%string
    /\ (String.length (firmware_url cfg) <= 63)%nat
    /\ current_state (ota d') = OTA_STATE_DOWNLOADING
    /\ processed_count (handler d')
       = u32 (processed_count handler_ready + 1)
    /\ error_count (handler d') = error_count handler_ready
    /\ command_queue (handler d')
       = QueueLive (mk_queue (uxLength (mk_queue COMMAND_QUEUE_SIZE [])) []).
Proof.
  apply (locator_is_cut_by_the_queue esp32c3
           "http://192.168.1.10/firmware.bin"%string 7000000 publish_ok
           handler_ready (mk_queue COMMAND_QUEUE_SIZE []) module_boot).
  - reflexivity.
  - reflexivity.
  - unfold COMMAND_QUEUE_SIZE. cbn. lia.
  - discriminate.
  - reflexivity.
Defined.

(** ** The version text *)


Lemma c_str_length (bytes : list byte) :
  (List.length (c_str bytes) <= List.length bytes)%nat.
Proof.
  induction bytes as [|b bytes IH]; cbn; [lia|].
  destruct (Byte.eqb b x00); cbn; lia.
Qed.

Lemma c_str_nul_free (bytes : list byte) : ~ In x00 (c_str bytes).
Proof.
  induction bytes as [|b bytes IH]; cbn; [tauto|].
  destruct (Byte.eqb b x00) eqn:E; cbn; [tauto|].
  intros [H|H]; [|contradiction]. subst b. discriminate E.
Qed.






(* ====================================================================== *)
(** * Properties of the sensor task *)

Lemma adc_fold_bounds (reading : nat -> Z) (lo hi : Z) (l : list nat) :
  forall acc : Z,
    (forall i, In i l -> lo <= reading i <= hi) ->
    0 <= lo ->
    0 <= acc ->
    acc + Z.of_nat (List.length l) * hi < 2 ^ 32 ->
    acc + Z.of_nat (List.length l) * lo
    <= fold_left (fun sum i => u32 (sum + reading i)) l acc
    <= acc + Z.of_nat (List.length l) * hi.
Proof.
  induction l as [|i l IH]; intros acc Hr Hlo Hacc Hfit.
  - cbn. lia.
  - cbn [fold_left]. cbn [List.length] in *.
    assert (Hi : lo <= reading i <= hi) by (apply Hr; now left).
    assert (Hs : u32 (acc + reading i) = acc + reading i)
      by (unfold u32; apply Z.mod_small; nia).
    rewrite Hs.
    assert (Hl : forall j, In j l -> lo <= reading j <= hi)
      by (intros j Hj; apply Hr; now right).
    specialize (IH (acc + reading i) Hl Hlo ltac:(lia) ltac:(nia)).
    nia.
Qed.

Lemma adc_fold_exact (reading : nat -> Z) (lo hi : Z) (l : list nat) :
  forall acc : Z,
    (forall i, In i l -> lo <= reading i <= hi) ->
    0 <= lo ->
    0 <= acc ->
    acc + Z.of_nat (List.length l) * hi < 2 ^ 32 ->
    fold_left (fun sum i => u32 (sum + reading i)) l acc
    = fold_left (fun sum i => sum + reading i) l acc.
Proof.
  induction l as [|i l IH]; intros acc Hr Hlo Hacc Hfit.
  - reflexivity.
  - cbn [fold_left]. cbn [List.length] in *.
    assert (Hi : lo <= reading i <= hi) by (apply Hr; now left).
    assert (Hs : u32 (acc + reading i) = acc + reading i)
      by (unfold u32; apply Z.mod_small; nia).
    rewrite Hs.
    apply IH; [intros j Hj; apply Hr; now right | exact Hlo | lia | nia].
Qed.

(** X15: the mean of the ten ADC samples lies between the smallest and the
    largest of them.  When every sample is between [lo] and [hi], with
    [0 <= lo] and [hi <= 4095] (the 12-bit range the channel is set to), the
    sum does not wrap around and [raw_adc] is between [lo] and [hi]. *)
Theorem raw_adc_is_within_samples (reading : nat -> Z) (lo hi : Z) :
  0 <= lo ->
  hi <= 4095 ->
  (forall i, (i < SAMPLE_COUNT)%nat -> lo <= reading i <= hi) ->
  lo <= read_soil_moisture_raw_adc reading <= hi
  /\ adc_sum reading
     = fold_left (fun sum i => sum + reading i) (seq 0 SAMPLE_COUNT) 0.
Proof.
  intros Hlo Hhi Hr.
  assert (Hin : forall i, In i (seq 0 SAMPLE_COUNT) -> lo <= reading i <= hi)
    by (intros i Hi; apply Hr; apply in_seq in Hi; lia).
  assert (Hlh : lo <= hi) by (specialize (Hr 0%nat ltac:(unfold SAMPLE_COUNT; lia)); lia).
  pose proof (adc_fold_bounds reading lo hi (seq 0 SAMPLE_COUNT) 0 Hin Hlo
                ltac:(lia)) as Hb.
  rewrite length_seq in Hb. change (Z.of_nat SAMPLE_COUNT) with 10 in Hb.
  specialize (Hb ltac:(lia)).
  split.
  - unfold read_soil_moisture_raw_adc, adc_sum.
    change (Z.of_nat SAMPLE_COUNT) with 10.
    set (s := fold_left _ _ _) in *.
    assert (Hq : lo <= s / 10 <= hi).
    { split; [apply Z.div_le_lower_bound | apply Z.div_le_upper_bound];
        lia. }
    rewrite int32_small; lia.
  - unfold adc_sum.
    apply (adc_fold_exact reading lo hi (seq 0 SAMPLE_COUNT) 0 Hin Hlo);
      [lia|]. rewrite length_seq. change (Z.of_nat SAMPLE_COUNT) with 10.
    lia.
Qed.

Lemma raw_adc_is_within_samples_witness :
  1400 <= read_soil_moisture_raw_adc (fun i => 1400 + Z.of_nat i) <= 1409
  /\ adc_sum (fun i => 1400 + Z.of_nat i)
     = fold_left (fun sum i => sum + (1400 + Z.of_nat i))
                 (seq 0 SAMPLE_COUNT) 0.
Proof.
  apply (raw_adc_is_within_samples (fun i => 1400 + Z.of_nat i) 1400 1409).
  - lia.
  - lia.
  - unfold SAMPLE_COUNT. intros i Hi. lia.
Defined.

(** X16: the two periods of the sensor task are measured correctly across
    the wrap-around of the 32-bit seconds counter.  When [d] seconds, fewer
    than 2^32, have passed since data was last sent and [d'] since the
    status was last sent, a pass sends data exactly when [d >= 2], sends the
    status exactly when [d' >= 30], and moves each time stamp to the present
    exactly when it sends. *)
Theorem sensor_task_periods (timer_us d d' : Z) (t : sensor_times) :
  0 <= last_data_time t < 2 ^ 32 ->
  0 <= last_status_time t < 2 ^ 32 ->
  0 <= d < 2 ^ 32 ->
  0 <= d' < 2 ^ 32 ->
  u32 (Z.quot timer_us 1000000) = u32 (last_data_time t + d) ->
  u32 (Z.quot timer_us 1000000) = u32 (last_status_time t + d') ->
  sends_data (fst (sensor_task_pass timer_us t)) = (d >=? 2)
  /\ sends_status (fst (sensor_task_pass timer_us t)) = (d' >=? 30)
  /\ last_data_time (snd (sensor_task_pass timer_us t))
     = (if d >=? 2 then u32 (Z.quot timer_us 1000000)
        else last_data_time t)
  /\ last_status_time (snd (sensor_task_pass timer_us t))
     = (if d' >=? 30 then u32 (Z.quot timer_us 1000000)
        else last_status_time t).
Proof.
  intros Hld Hls Hd Hd' Hnow Hnow'.
  unfold sensor_task_pass. cbn [fst snd sends_data sends_status
                                  last_data_time last_status_time].
  set (now := u32 (Z.quot timer_us 1000000)) in *.
  assert (E : u32 (now - last_data_time t) = d).
  { rewrite Hnow. clear - Hld Hd. u32_arith. }
  assert (E' : u32 (now - last_status_time t) = d').
  { rewrite Hnow'. clear - Hls Hd'. u32_arith. }
  rewrite E, E'. repeat split.
Qed.

Lemma sensor_task_periods_witness :
  sends_data (fst (sensor_task_pass 3000000
                     (mk_sensor_times 4294967295 4294967295)))
  = (4 >=? 2)
  /\ sends_status (fst (sensor_task_pass 3000000
                          (mk_sensor_times 4294967295 4294967295)))
     = (4 >=? 30)
  /\ last_data_time (snd (sensor_task_pass 3000000
                            (mk_sensor_times 4294967295 4294967295)))
     = (if 4 >=? 2 then u32 (Z.quot 3000000 1000000)
        else last_data_time (mk_sensor_times 4294967295 4294967295))
  /\ last_status_time (snd (sensor_task_pass 3000000
                              (mk_sensor_times 4294967295 4294967295)))
     = (if 4 >=? 30 then u32 (Z.quot 3000000 1000000)
        else last_status_time (mk_sensor_times 4294967295 4294967295)).
Proof.
  apply (sensor_task_periods 3000000 4 4
           (mk_sensor_times 4294967295 4294967295));
    cbn; try lia; reflexivity.
Defined.

(* ====================================================================== *)
(** * Properties of the handler with the GPIO commands *)

Lemma gpio_parse_command_chain (s : string) (cmd_len : Z) :
  Gpio.parse_command (Some s) cmd_len
  = if cmd_len <=? 0 then Gpio.CMD_UNKNOWN
    else first_strncmp Gpio.CMD_UNKNOWN Gpio.command_literals s
                       (Z.to_nat cmd_len).
Proof. reflexivity. Qed.

(** X17: what the [parse_command] of the GPIO revision accepts.  For a text
    without NUL, given with its own length, the result is the kind of the
    first literal, in the order GPIO_ON, GPIO_OFF, GET_STATUS, GET_READING,
    that begins with the text.  A text that begins both GPIO_ON and GPIO_OFF
    (any non-empty beginning of "GPIO_O") therefore switches the output
    on. *)
Theorem gpio_parse_command_is_prefix_lookup (s : string) :
  nul_free s = true ->
  s <> EmptyString ->
  Gpio.parse_command (Some s) (Z.of_nat (String.length s))
  = kind_of_prefix Gpio.CMD_UNKNOWN Gpio.command_literals s
  /\ (String.prefix s "GPIO_O" = true ->
      Gpio.parse_command (Some s) (Z.of_nat (String.length s))
      = Gpio.CMD_GPIO_ON).
Proof.
  intros Hnul Hne.
  assert (E : Gpio.parse_command (Some s) (Z.of_nat (String.length s))
              = kind_of_prefix Gpio.CMD_UNKNOWN Gpio.command_literals s).
  { rewrite gpio_parse_command_chain.
    destruct s as [|c s]; [contradiction|].
    assert (L : (Z.of_nat (String.length (String c s)) <=? 0) = false)
      by (apply Z.leb_gt; cbn [String.length]; lia).
    rewrite L, Nat2Z.id. now apply first_strncmp_kind. }
  split; [exact E|]. intro Hp. rewrite E.
  unfold kind_of_prefix, Gpio.command_literals. cbn [find fst snd].
  assert (Hon : String.prefix s "GPIO_ON" = true).
  { clear - Hp. revert Hp.
    repeat (destruct s as [|? s]; [intros; reflexivity|]; cbn;
            match goal with
            | |- context [ascii_dec ?a ?b] => destruct (ascii_dec a b)
            end; [|intro H; discriminate H]).
    destruct s; [reflexivity | intro H; discriminate H]. }
  now rewrite Hon.
Qed.

Lemma gpio_parse_command_is_prefix_lookup_witness :
  Gpio.parse_command (Some "GPIO_O"%string)
                     (Z.of_nat (String.length "GPIO_O"%string))
  = kind_of_prefix Gpio.CMD_UNKNOWN Gpio.command_literals "GPIO_O"%string
  /\ (String.prefix "GPIO_O"%string "GPIO_O" = true ->
      Gpio.parse_command (Some "GPIO_O"%string)
                         (Z.of_nat (String.length "GPIO_O"%string))
      = Gpio.CMD_GPIO_ON).
Proof.
  apply (gpio_parse_command_is_prefix_lookup "GPIO_O"%string).
  - reflexivity.
  - discriminate.
Defined.

(* ====================================================================== *)
(** * The cancel command from the dispatcher to the task *)

(** X18: the OTA_CANCEL command.  When no update is in progress it changes
    nothing and returns StateError, or the error of the notice that could
    not be published.  When the task stands at the top of its download loop
    in state Downloading the command returns [ESP_OK] whatever the MQTT
    client answers, touches neither state nor statistics, and the task then
    ends without reading or writing another chunk: state Error, last result
    DownloadError, one failure counted. *)
Theorem ota_cancel_command_ends_download (P : platform) (mq : mqtt_env)
    (c : chunk) (m : ota_module) :
  (in_progress (current_state m) = false ->
   execute_ota_cancel_command mq m
   = (if is_ESP_OK (send_mqtt_response mq)
      then ESP_ERR_INVALID_STATE else send_mqtt_response mq, m))
  /\ (forall ctx n,
        task m = Some (AtLoop ctx n) ->
        current_state m = OTA_STATE_DOWNLOADING ->
        exists m1 m2,
          execute_ota_cancel_command mq m = (ESP_OK, m1)
          /\ current_state m1 = OTA_STATE_DOWNLOADING
          /\ ota_stats m1 = ota_stats m
          /\ ota_task_run P [InChunk c; InNothing; InNothing] m1 = Some m2
          /\ task m2 = None
          /\ current_state m2 = OTA_STATE_ERROR
          /\ last_result (ota_stats m2) = OTA_RESULT_DOWNLOAD_ERROR
          /\ failed_updates (ota_stats m2)
             = u32 (failed_updates (ota_stats m) + 1)
          /\ ota_written m2 = ota_written m).
Proof.
  unfold execute_ota_cancel_command, ota_cancel_update.
  rewrite ota_is_updating_in_progress. split.
  - intro H. now rewrite H.
  - intros ctx n Ht Hs. rewrite Hs. cbn [in_progress negb].
    do 2 eexists. split; [reflexivity|].
    split; [exact Hs|]. split; [reflexivity|].
    rewrite ota_task_run_cons. unfold ota_task_step.
    cbn [task set_cancel_requested]. rewrite Ht.
    unfold ota_task_iteration. cbn [cancel_requested set_cancel_requested].
    rewrite (failed_task_ends P ctx) by reflexivity.
    split; [reflexivity|]. cbn. repeat split.
Qed.

Lemma ota_cancel_command_ends_download_witness :
  exists m1 m2,
    execute_ota_cancel_command publish_fails module_downloading = (ESP_OK, m1)
    /\ current_state m1 = OTA_STATE_DOWNLOADING
    /\ ota_stats m1 = ota_stats module_downloading
    /\ ota_task_run esp32c3 [InChunk end_of_file; InNothing; InNothing] m1
       = Some m2
    /\ task m2 = None
    /\ current_state m2 = OTA_STATE_ERROR
    /\ last_result (ota_stats m2) = OTA_RESULT_DOWNLOAD_ERROR
    /\ failed_updates (ota_stats m2)
       = u32 (failed_updates (ota_stats module_downloading) + 1)
    /\ ota_written m2 = ota_written module_downloading.
Proof.
  apply (proj2 (ota_cancel_command_ends_download esp32c3 publish_fails
                  end_of_file module_downloading)
           (mk_ctx example_config 2048 false app_desc_zero) 0);
    reflexivity.
Defined.

(* ====================================================================== *)
(** * The state graph and the division, once more *)

Lemma dag_path_middle (l1 l2 : list ota_state_t) (a b : ota_state_t) :
  dag_path (l1 ++ a :: b :: l2) = true -> dag_move a b = true.
Proof.
  induction l1 as [|x l1 IH]; intro H.
  - cbn in H. now apply andb_prop in H as [H _].
  - apply IH. destruct l1 as [|y l1]; cbn in H |- *;
      now apply andb_prop in H as [_ H].
Qed.

(** X19: every change of state is an edge of the graph.  Along an execution
    from boot in which no start is interrupted, any two values of
    [current_state] that follow one another are equal or joined by one of
    the edges Idle-Downloading, Downloading-Verifying, Verifying-Installing,
    Installing-Success, or an edge from Downloading, Verifying or Installing
    to Error. *)
Theorem state_changes_are_graph_edges (P : platform) (es : list event)
    (l1 l2 : list ota_state_t) (a b : ota_state_t) :
  forallb uninterrupted es = true ->
  states_along P es module_boot = l1 ++ a :: b :: l2 ->
  a = b \/ dag_edge a b = true.
Proof.
  intros Hall Hl.
  pose proof (uninterrupted_execution_follows_dag P es Hall) as Hp.
  rewrite Hl in Hp. apply dag_path_middle in Hp.
  unfold dag_move in Hp. apply orb_prop in Hp as [Hp|Hp]; [left|now right].
  now apply ota_state_eqb_eq.
Qed.

Lemma state_changes_are_graph_edges_witness :
  OTA_STATE_INSTALLING = OTA_STATE_SUCCESS
  \/ dag_edge OTA_STATE_INSTALLING OTA_STATE_SUCCESS = true.
Proof.
  apply (state_changes_are_graph_edges esp32c3 good_update
           [ OTA_STATE_IDLE; OTA_STATE_DOWNLOADING; OTA_STATE_DOWNLOADING;
             OTA_STATE_DOWNLOADING; OTA_STATE_DOWNLOADING;
             OTA_STATE_DOWNLOADING; OTA_STATE_DOWNLOADING;
             OTA_STATE_VERIFYING ] []
           OTA_STATE_INSTALLING OTA_STATE_SUCCESS).
  - reflexivity.
  - vm_compute. reflexivity.
Defined.

Lemma task_step_keeps_length_known (P : platform) (i : task_input)
    (m m' : ota_module) :
  length_known m ->
  ota_task_step P i m = Some m' ->
  length_known m'.
Proof.
  intros Hk Hstep. unfold ota_task_step in Hstep. unfold length_known in *.
  destruct (task m) as [[cfg|ctx|ctx n|ctx|ctx|ctx| | | ]|] eqn:Ht;
    try contradiction; destruct i; try discriminate Hstep;
    injection Hstep as <-.
  - destruct (nonzero_length_pass_is_defined P c ctx n m Hk) as [Hnf Hsame].
    destruct (task (ota_task_iteration P c ctx n m)) as [pc|] eqn:E;
      [|exact I].
    destruct pc; try exact I.
    + unfold ota_task_iteration, check_image_header in E.
      revert E. split_ifs; cbn -[Z.quot Z.rem int32]; discriminate.
    + unfold ota_task_iteration, check_image_header in E.
      revert E. split_ifs; cbn -[Z.quot Z.rem int32]; discriminate.
    + rewrite (Hsame _ _ eq_refl). exact Hk.
    + now apply Hnf.
  - unfold ota_task_after_loop. split_ifs; exact I.
  - unfold ota_task_ota_end. split_ifs; exact I.
  - unfold ota_task_set_boot. split_ifs; exact I.
  - exact I.
Qed.

(** X20: with a content length other than 0 the task never divides by 0.
    From the top of the download loop, with [binary_file_length] not 0,
    whatever the collaborators answer and however many chunks arrive, no run
    of the task reaches the division of line 276 with divisor 0. *)
Theorem known_length_never_divides_by_zero (P : platform)
    (inputs : list task_input) (ctx : ota_context_t) (n : Z)
    (m m' : ota_module) :
  task m = Some (AtLoop ctx n) ->
  binary_file_length ctx <> 0 ->
  ota_task_run P inputs m = Some m' ->
  task m' <> Some Fault.
Proof.
  intros Ht Hlen Hrun.
  assert (Hk : length_known m) by (unfold length_known; now rewrite Ht).
  clear Ht Hlen.
  assert (G : length_known m').
  { revert m Hk Hrun. induction inputs as [|i inputs IH]; intros m Hk Hrun;
      cbn in Hrun.
    - now injection Hrun as <-.
    - destruct (ota_task_step P i m) as [m1|] eqn:Hstep;
        [|discriminate Hrun].
      apply (IH m1); [|exact Hrun].
      now apply (task_step_keeps_length_known P i m). }
  unfold length_known in G. intro E. now rewrite E in G.
Qed.

Lemma known_length_never_divides_by_zero_witness :
  exists m',
    ota_task_run esp32c3
      [InChunk short_chunk; InChunk (image_chunk "1.0.1" ESP_OK)]
      module_downloading = Some m'
    /\ task m' <> Some Fault.
Proof.
  eexists. split; [vm_compute; reflexivity|].
  apply (known_length_never_divides_by_zero esp32c3
           [InChunk short_chunk; InChunk (image_chunk "1.0.1" ESP_OK)]
           (mk_ctx example_config 2048 false app_desc_zero) 0
           module_downloading).
  - reflexivity.
  - cbn. lia.
  - vm_compute. reflexivity.
Defined.
